(** * WeatherTools: the two weather tools of [weather.py]

    A shallow embedding of [make_nws_request], [format_alert], [get_alerts]
    and [get_forecast].  Python values decoded from JSON are an inductive
    type, Python exceptions are an error result, and the two effects of the
    program (calls of [client.get] and log lines on stderr) are recorded in
    a world that every operation threads through.

    Strings are byte strings holding the UTF-8 encoding of the Python text. *)

From Stdlib Require Import ZArith List String Ascii Bool Lia.
From Stdlib Require Import DecimalString.
From Stdlib Require Import Floats.SpecFloat.
Import ListNotations.

Local Open Scope string_scope.
Local Open Scope Z_scope.

(** ** Python values *)

(** What [response.json()] can return: [None], a bool, an int, a float, a
    str, a list or a dict.  A dict keeps its entries in insertion order and
    its keys are pairwise distinct. *)
#[local] Set Warnings "-register-all".
Inductive json : Type :=
| JNull
| JBool (b : bool)
| JInt (n : Z)
| JFloat (f : spec_float)
| JStr (s : string)
| JList (items : list json)
| JDict (entries : list (string * json)).

(** The exceptions the tools can raise to their caller. *)
Inductive exn : Type :=
| KeyError (key : string)
| TypeError
| AttributeError.

Inductive result (A : Type) : Type :=
| Ok (a : A)
| Raise (e : exn).
Arguments Ok {A} a.
Arguments Raise {A} e.

Definition nl : string := String "010" "".

(** [sep.join(parts)] *)
Definition join (sep : string) (parts : list string) : string :=
  String.concat sep parts.

(** [bool(v)], as [not v] and [if v] use it. *)
Definition truthy (v : json) : bool :=
  match v with
  | JNull => false
  | JBool b => b
  | JInt n => negb (n =? 0)
  | JFloat (S754_zero _) => false
  | JFloat _ => true
  | JStr s => negb (String.eqb s "")
  | JList items => match items with [] => false | _ :: _ => true end
  | JDict entries => match entries with [] => false | _ :: _ => true end
  end.

(** Lookup of a key in the entries of a dict. *)
Fixpoint lookup (key : string) (entries : list (string * json)) : option json :=
  match entries with
  | [] => None
  | (k, v) :: rest => if String.eqb key k then Some v else lookup key rest
  end.

(** [needle in s] on two strs. *)
Definition substring_of (needle s : string) : bool :=
  match String.index 0 needle s with
  | Some _ => true
  | None => false
  end.

Definition is_str (key : string) (v : json) : bool :=
  match v with
  | JStr s => String.eqb key s
  | _ => false
  end.

(** [key in container] for a str [key]. *)
Definition contains (key : string) (container : json) : result bool :=
  match container with
  | JDict entries =>
      Ok (match lookup key entries with Some _ => true | None => false end)
  | JList items => Ok (existsb (is_str key) items)
  | JStr s => Ok (substring_of key s)
  | JNull | JBool _ | JInt _ | JFloat _ => Raise TypeError
  end.

(** [container[key]] for a str [key]. *)
Definition getitem (container : json) (key : string) : result json :=
  match container with
  | JDict entries =>
      match lookup key entries with
      | Some v => Ok v
      | None => Raise (KeyError key)
      end
  | _ => Raise TypeError
  end.

(** [obj.get(key, default)]: only a dict has the method. *)
Definition get (obj : json) (key : string) (default : json) : result json :=
  match obj with
  | JDict entries =>
      Ok (match lookup key entries with Some v => v | None => default end)
  | _ => Raise AttributeError
  end.

(** A byte of the form 10xxxxxx continues a character. *)
Definition is_continuation (c : ascii) : bool :=
  let n := nat_of_ascii c in (128 <=? n)%nat && (n <? 192)%nat.

Definition continues (s : string) : bool :=
  match s with
  | String d _ => is_continuation d
  | EmptyString => false
  end.

(** The characters of a str, each with its UTF-8 bytes. *)
Fixpoint characters (s : string) : list string :=
  match s with
  | EmptyString => []
  | String c rest =>
      match characters rest with
      | following :: more =>
          if continues rest then String c following :: more
          else String c "" :: following :: more
      | [] => [String c ""]
      end
  end.

(** The values a [for] loop or a comprehension draws from [v]. *)
Definition iterate (v : json) : result (list json) :=
  match v with
  | JList items => Ok items
  | JStr s => Ok (map JStr (characters s))
  | JDict entries => Ok (map (fun kv => JStr (fst kv)) entries)
  | JNull | JBool _ | JInt _ | JFloat _ => Raise TypeError
  end.

(** [v[:n]].  A dict rejects a slice as a key. *)
Definition slice_to (n : nat) (v : json) : result json :=
  match v with
  | JList items => Ok (JList (firstn n items))
  | JStr s => Ok (JStr (String.concat "" (firstn n (characters s))))
  | _ => Raise TypeError
  end.

(** ** Effects *)

Inductive level : Type := DEBUG | INFO | WARNING | ERROR.

(** What an invocation does to the outside: calls of [client.get] and
    lines handed to [logging]. *)
Inductive event : Type :=
| Get (url : json) (headers : list (string * string)) (timeout : Z)
| Log (lvl : level) (message : string).

Definition world : Type := list event.

Definition is_get (e : event) : bool :=
  match e with
  | Get _ _ _ => true
  | Log _ _ => false
  end.

(** Number of [client.get] calls made so far. *)
Definition calls (w : world) : nat := List.length (filter is_get w).

(** What the three statements of the [try] body can do: [client.get]
    raises, or it answers with a status; then [raise_for_status] raises or
    not, and [response.json()] raises or returns the decoded body.  Each
    exception comes with its text [str(e)]. *)
Inductive get_outcome : Type :=
| GetRaised (text : string)
| Replied (status_code : Z) (status_error : string) (body : string + json).

(** A computation: it runs in a world and ends with a value or a raised
    exception, in the world it leaves behind. *)
Definition M (A : Type) : Type := world -> result A * world.

Definition ret {A} (a : A) : M A := fun w => (Ok a, w).

Definition bind {A B} (m : M A) (k : A -> M B) : M B :=
  fun w =>
    match m w with
    | (Ok a, w') => k a w'
    | (Raise e, w') => (Raise e, w')
    end.

Definition lift {A} (r : result A) : M A := fun w => (r, w).

Notation "x <- m ;; k" := (bind m (fun x => k))
  (at level 61, m at next level, right associativity).
Notation "m ;; k" := (bind m (fun _ => k))
  (at level 61, right associativity).

Definition logging (lvl : level) (message : string) : M unit :=
  fun w => (Ok tt, (w ++ [Log lvl message])%list).

Fixpoint mapM {A B} (f : A -> M B) (l : list A) : M (list B) :=
  match l with
  | [] => ret []
  | a :: rest =>
      b <- f a ;;
      bs <- mapM f rest ;;
      ret (b :: bs)
  end.

Definition NWS_API_BASE : string := "https://api.weather.gov".
Definition USER_AGENT : string := "weather-app/1.0".

(** [response.is_success] *)
Definition is_success (status_code : Z) : bool :=
  (200 <=? status_code) && (status_code <=? 299).

(** ** Renderings and upstreams of the worked examples *)

Definition has_char (c : ascii) (s : string) : bool :=
  existsb (Ascii.eqb c) (list_ascii_of_string s).

Definition hex_digit (n : nat) : ascii :=
  nth n (list_ascii_of_string "0123456789abcdef") "0"%char.

Definition backslash : ascii := "092"%char.

(** How [repr] writes one character of a str between quotes [quote]. *)
Definition escape (quote c : ascii) : string :=
  let n := nat_of_ascii c in
  if Ascii.eqb c quote || Ascii.eqb c backslash then
    String backslash (String c "")
  else if Ascii.eqb c "009" then String backslash "t"
  else if Ascii.eqb c "010" then String backslash "n"
  else if Ascii.eqb c "013" then String backslash "r"
  else if (n <? 32)%nat || (n =? 127)%nat then
    String backslash
      (String "x" (String (hex_digit (n / 16))
                     (String (hex_digit (n mod 16)) "")))
  else String c "".

(** [repr] of a str whose characters beyond ASCII are all printable: those
    are written as they are. *)
Definition text_repr (s : string) : string :=
  let quote :=
    if has_char "'" s && negb (has_char "034" s) then "034"%char
    else "'"%char in
  String quote
    (String.concat "" (map (escape quote) (list_ascii_of_string s))
       ++ String quote "").

(** [repr] of a float, exact on the zeros, the infinities, NaN and the
    whole numbers below 10^16; the examples use no other float. *)
Definition whole_repr (f : spec_float) : string :=
  match f with
  | S754_zero false => "0.0"
  | S754_zero true => "-0.0"
  | S754_infinity false => "inf"
  | S754_infinity true => "-inf"
  | S754_nan => "nan"
  | S754_finite s m e =>
      (if s then "-" else "")
        ++ NilZero.string_of_int (Z.to_int (Z.shiftl (Z.pos m) e)) ++ ".0"
  end.

(** An upstream that answers the [n]-th call with status 200 and the
    [n]-th of [bodies], and fails every later call. *)
Definition replies (bodies : list json) : nat -> json -> get_outcome :=
  fun n _ =>
    match nth_error bodies n with
    | Some body => Replied 200 "" (inr body)
    | None => GetRaised "All connection attempts failed"
    end.

(** 39.0 and -77.0 *)
Definition lat_39 : spec_float := S754_finite false 5488762045857792 (-47).
Definition lon_77 : spec_float := S754_finite true 5418393301680128 (-46).

(** Bodies of the worked examples. *)
Definition alerts_missing_properties : json :=
  JDict [("type", JStr "FeatureCollection");
         ("features", JList [JDict [("type", JStr "Feature")]])].

Definition points_missing_properties : json :=
  JDict [("type", JStr "Feature")].

Definition points_missing_forecast : json :=
  JDict [("properties", JDict [("gridId", JStr "LWX")])].

Definition points_body : json :=
  JDict [("properties",
          JDict [("forecast",
                  JStr "https://api.weather.gov/gridpoints/LWX/96,70/forecast")])].

Definition forecast_missing_properties : json :=
  JDict [("type", JStr "Feature")].

Definition forecast_missing_periods : json :=
  JDict [("properties", JDict [("units", JStr "us")])].

Definition flood_warning : json :=
  JDict [("id", JStr "urn:oid:2.49.0.1.840.0.1");
         ("properties",
          JDict [("event", JStr "Flood Warning");
                 ("areaDesc", JStr "Travis, TX");
                 ("description", JStr "River rising.");
                 ("instruction", JNull)])].

Definition heat_advisory : json :=
  JDict [("properties",
          JDict [("event", JStr "Heat Advisory");
                 ("severity", JStr "Moderate")])].

Definition alerts_body : json :=
  JDict [("features", JList [flood_warning; heat_advisory])].

Definition period_body (period_name : string) (degrees : Z) : json :=
  JDict [("number", JInt 1);
         ("name", JStr period_name);
         ("temperature", JInt degrees);
         ("temperatureUnit", JStr "F");
         ("windSpeed", JStr "5 mph");
         ("windDirection", JStr "NW");
         ("detailedForecast", JStr "Clear.")].

Definition forecast_body : json :=
  JDict [("properties",
          JDict [("periods",
                  JList [period_body "Today" 72; period_body "Tonight" 55;
                         period_body "Monday" 75;
                         period_body "Monday Night" 58;
                         period_body "Tuesday" 70;
                         period_body "Tuesday Night" (-3)])])].

Definition forecast_without_periods : json :=
  JDict [("properties", JDict [("periods", JList [])])].

(** What [make_nws_request] hands back for an outcome of its [try] body:
    the decoded body of an answer with a success status, [None] otherwise. *)
Definition fetched (o : get_outcome) : json :=
  match o with
  | GetRaised _ => JNull
  | Replied status_code _ body =>
      if is_success status_code then
        match body with
        | inl _ => JNull
        | inr data => data
        end
      else JNull
  end.

Definition request_headers : list (string * string) :=
  [("User-Agent", "weather-app/1.0"); ("Accept", "application/geo+json")].

Create HintDb same.
Create HintDb quiet.

(** ** Rendering of values *)

Section Rendering.

(** [repr] of a float and of a str are Python built-ins; they are taken as
    given. *)
Variable float_repr : spec_float -> string.
Variable str_repr : string -> string.

(** [repr(v)] *)
Fixpoint py_repr (v : json) : string :=
  match v with
  | JNull => "None"
  | JBool true => "True"
  | JBool false => "False"
  | JInt n => NilZero.string_of_int (Z.to_int n)
  | JFloat f => float_repr f
  | JStr s => str_repr s
  | JList items => "[" ++ join ", " (map py_repr items) ++ "]"
  | JDict entries =>
      "{" ++ join ", "
               (map (fun '(k, x) => str_repr k ++ ": " ++ py_repr x) entries)
          ++ "}"
  end.

(** [str(v)], which is what a replacement field [{v}] of an f-string
    inserts. *)
Definition py_str (v : json) : string :=
  match v with
  | JStr s => s
  | _ => py_repr v
  end.

(** ** The program *)

Section Tools.

(** The answer of the outside to the [n]-th call of [client.get], for the
    URL it is given. *)
Variable upstream : nat -> json -> get_outcome.

Definition client_get (url : json) (headers : list (string * string))
    (timeout : Z) : M get_outcome :=
  fun w => (Ok (upstream (calls w) url), (w ++ [Get url headers timeout])%list).

(** The [try] body of [make_nws_request]: [inl text] when one of its
    statements raises, [inr data] when it returns. *)
Definition try_body (url : json) (headers : list (string * string))
    : M (string + json) :=
  logging DEBUG ("Making NWS request to " ++ py_str url) ;;
  response <- client_get url headers 30 ;;
  match response with
  | GetRaised text => ret (inl text)
  | Replied status_code status_error body =>
      if is_success status_code then
        match body with
        | inl text => ret (inl text)
        | inr data =>
            logging DEBUG ("Received response from NWS: " ++ py_str data) ;;
            ret (inr data)
        end
      else ret (inl status_error)
  end.

Definition make_nws_request (url : json) : M json :=
  let headers :=
    [("User-Agent", USER_AGENT); ("Accept", "application/geo+json")] in
  r <- try_body url headers ;;
  match r with
  | inr data => ret data
  | inl text =>
      logging ERROR ("NWS request failed: " ++ text) ;;
      ret JNull
  end.

Definition format_alert (feature : json) : M string :=
  logging DEBUG ("Formatting alert feature: " ++ py_str feature) ;;
  props <- lift (getitem feature "properties") ;;
  event <- lift (get props "event" (JStr "Unknown")) ;;
  area <- lift (get props "areaDesc" (JStr "Unknown")) ;;
  severity <- lift (get props "severity" (JStr "Unknown")) ;;
  description <-
    lift (get props "description" (JStr "No description available")) ;;
  instruction <-
    lift (get props "instruction"
            (JStr "No specific instructions provided")) ;;
  ret (nl ++ "Event: " ++ py_str event ++ nl
          ++ "Area: " ++ py_str area ++ nl
          ++ "Severity: " ++ py_str severity ++ nl
          ++ "Description: " ++ py_str description ++ nl
          ++ "Instructions: " ++ py_str instruction ++ nl).

Definition separator : string := nl ++ "---" ++ nl.

Definition get_alerts (state : string) : M string :=
  logging DEBUG ("Fetching alerts for state: " ++ state) ;;
  let url := NWS_API_BASE ++ "/alerts/active/area/" ++ state in
  data <- make_nws_request (JStr url) ;;
  unusable <-
    (if negb (truthy data) then ret true
     else found <- lift (contains "features" data) ;; ret (negb found)) ;;
  if unusable then
    logging WARNING "No alerts data or features found" ;;
    ret "Unable to fetch alerts or no alerts found."
  else
    features <- lift (getitem data "features") ;;
    if negb (truthy features) then
      logging INFO "No active alerts for this state" ;;
      ret "No active alerts for this state."
    else
      features <- lift (getitem data "features") ;;
      items <- lift (iterate features) ;;
      alerts <- mapM format_alert items ;;
      ret (join separator alerts).

(** The body of the [for] loop of [get_forecast]. *)
Definition format_period (period : json) : M string :=
  name <- lift (getitem period "name") ;;
  temperature <- lift (getitem period "temperature") ;;
  unit <- lift (getitem period "temperatureUnit") ;;
  speed <- lift (getitem period "windSpeed") ;;
  direction <- lift (getitem period "windDirection") ;;
  detailed <- lift (getitem period "detailedForecast") ;;
  ret (nl ++ py_str name ++ ":" ++ nl
          ++ "Temperature: " ++ py_str temperature ++ "°" ++ py_str unit ++ nl
          ++ "Wind: " ++ py_str speed ++ " " ++ py_str direction ++ nl
          ++ "Forecast: " ++ py_str detailed ++ nl).

Definition get_forecast (latitude longitude : spec_float) : M string :=
  logging DEBUG ("Fetching forecast for lat: " ++ float_repr latitude
                   ++ ", lon: " ++ float_repr longitude) ;;
  let points_url :=
    NWS_API_BASE ++ "/points/" ++ float_repr latitude ++ ","
                 ++ float_repr longitude in
  points_data <- make_nws_request (JStr points_url) ;;
  if negb (truthy points_data) then
    logging WARNING "Failed to fetch forecast data" ;;
    ret "Unable to fetch forecast data for this location."
  else
    properties <- lift (getitem points_data "properties") ;;
    forecast_url <- lift (getitem properties "forecast") ;;
    forecast_data <- make_nws_request forecast_url ;;
    if negb (truthy forecast_data) then
      logging WARNING "Failed to fetch detailed forecast" ;;
      ret "Unable to fetch detailed forecast."
    else
      properties <- lift (getitem forecast_data "properties") ;;
      periods <- lift (getitem properties "periods") ;;
      first_five <- lift (slice_to 5 periods) ;;
      items <- lift (iterate first_five) ;;
      forecasts <- mapM format_period items ;;
      ret (join separator forecasts).

End Tools.

(** ** Vocabulary of the statements *)

Definition alerts_url (state : string) : string :=
  NWS_API_BASE ++ "/alerts/active/area/" ++ state.

Definition points_url (latitude longitude : spec_float) : string :=
  NWS_API_BASE ++ "/points/" ++ float_repr latitude ++ ","
               ++ float_repr longitude.

(** The [properties] record of a feature. *)
Definition properties_of (feature : json) : option (list (string * json)) :=
  match feature with
  | JDict entries =>
      match lookup "properties" entries with
      | Some (JDict props) => Some props
      | _ => None
      end
  | _ => None
  end.

(** The text of a field, or the placeholder when the field is missing. *)
Definition field_or (props : list (string * json)) (key placeholder : string)
    : string :=
  match lookup key props with
  | Some v => py_str v
  | None => placeholder
  end.

Definition alert_lines (props : list (string * json)) : list string :=
  [ "Event: " ++ field_or props "event" "Unknown";
    "Area: " ++ field_or props "areaDesc" "Unknown";
    "Severity: " ++ field_or props "severity" "Unknown";
    "Description: " ++ field_or props "description" "No description available";
    "Instructions: "
      ++ field_or props "instruction" "No specific instructions provided" ].

Definition alert_block (props : list (string * json)) : string :=
  nl ++ join nl (alert_lines props) ++ nl.

(** A feature [format_alert] has a block for. *)
Definition formattable (feature : json) : bool :=
  match properties_of feature with
  | Some _ => true
  | None => false
  end.

(** The fetched bodies on which [get_alerts] returns a text: the falsy
    ones; a list or a string that does not contain "features"; an object
    without [features], or whose [features] is falsy or is a list of
    formattable features. *)
Definition returns_text (data : json) : bool :=
  match data with
  | JDict entries =>
      match lookup "features" entries with
      | None => true
      | Some features =>
          match features with
          | JList items => forallb formattable items
          | _ => negb (truthy features)
          end
      end
  | JList items => negb (existsb (is_str "features") items)
  | JStr s => negb (substring_of "features" s)
  | _ => negb (truthy data)
  end.

(** [points_data["properties"]["forecast"]] of a points record. *)
Definition forecast_of (points_data : json) : option json :=
  match points_data with
  | JDict entries =>
      match lookup "properties" entries with
      | Some (JDict props) => lookup "forecast" props
      | _ => None
      end
  | _ => None
  end.

(** [forecast_data["properties"]["periods"]] of a forecast record. *)
Definition periods_of (forecast_data : json) : option (list json) :=
  match forecast_data with
  | JDict entries =>
      match lookup "properties" entries with
      | Some (JDict props) =>
          match lookup "periods" props with
          | Some (JList periods) => Some periods
          | _ => None
          end
      | _ => None
      end
  | _ => None
  end.

Record period_fields : Type := {
  name : json;
  temperature : json;
  temperatureUnit : json;
  windSpeed : json;
  windDirection : json;
  detailedForecast : json
}.

(** The six fields of a period record. *)
Definition fields_of (period : json) : option period_fields :=
  match period with
  | JDict entries =>
      match lookup "name" entries, lookup "temperature" entries,
            lookup "temperatureUnit" entries, lookup "windSpeed" entries,
            lookup "windDirection" entries,
            lookup "detailedForecast" entries with
      | Some n, Some t, Some u, Some s, Some d, Some f =>
          Some {| name := n; temperature := t; temperatureUnit := u;
                  windSpeed := s; windDirection := d;
                  detailedForecast := f |}
      | _, _, _, _, _, _ => None
      end
  | _ => None
  end.

Definition period_lines (p : period_fields) : list string :=
  [ py_str (name p) ++ ":";
    "Temperature: " ++ py_str (temperature p) ++ "°"
      ++ py_str (temperatureUnit p);
    "Wind: " ++ py_str (windSpeed p) ++ " " ++ py_str (windDirection p);
    "Forecast: " ++ py_str (detailedForecast p) ].

Definition period_block (p : period_fields) : string :=
  nl ++ join nl (period_lines p) ++ nl.

(** Two computations, each run against its own upstream [up1], [up2]:
    started in worlds from which the upstreams answer alike, they end
    with the same result, in worlds from which the upstreams still answer
    alike. *)
Definition answer_alike (up1 up2 : nat -> json -> get_outcome)
    (n1 n2 : nat) : Prop :=
  forall k url, up1 (n1 + k)%nat url = up2 (n2 + k)%nat url.

Definition same_result (up1 up2 : nat -> json -> get_outcome) {A}
    (m1 m2 : M A) : Prop :=
  forall w1 w2,
    answer_alike up1 up2 (calls w1) (calls w2) ->
    fst (m1 w1) = fst (m2 w2)
    /\ answer_alike up1 up2 (calls (snd (m1 w1))) (calls (snd (m2 w2))).

(** A computation that makes no call of the outside. *)
Definition quiet {A} (m : M A) : Prop :=
  forall w, filter is_get (snd (m w)) = filter is_get w.

(** The line [make_nws_request] logs after its call of [client.get]. *)
Definition closing_line (o : get_outcome) : event :=
  match o with
  | GetRaised text => Log ERROR ("NWS request failed: " ++ text)
  | Replied status_code status_error body =>
      if is_success status_code then
        match body with
        | inl text => Log ERROR ("NWS request failed: " ++ text)
        | inr data => Log DEBUG ("Received response from NWS: " ++ py_str data)
        end
      else Log ERROR ("NWS request failed: " ++ status_error)
  end.

(** The keys the loop of [get_forecast] subscripts a period with, in the
    order of the f-string. *)
Definition period_keys : list string :=
  ["name"; "temperature"; "temperatureUnit"; "windSpeed"; "windDirection";
   "detailedForecast"].

(** The first of them that [entries] lacks. *)
Definition missing_key (entries : list (string * json)) : option string :=
  find (fun key =>
          match lookup key entries with
          | Some _ => false
          | None => true
          end) period_keys.

(** ** Running computations *)

Lemma append_assoc (a b c : string) : (a ++ b) ++ c = a ++ b ++ c.
Proof. induction a as [|ch a IH]; simpl; [reflexivity | now rewrite IH]. Qed.

Lemma bind_run {A B} (m : M A) (k : A -> M B) w a w' :
  m w = (Ok a, w') -> bind m k w = k a w'.
Proof. intros H. unfold bind. now rewrite H. Qed.

Lemma bind_logging {B} lvl message (k : unit -> M B) w :
  bind (logging lvl message) k w = k tt (w ++ [Log lvl message])%list.
Proof. reflexivity. Qed.

Lemma bind_lift_ok {A B} (a : A) (k : A -> M B) w :
  bind (lift (Ok a)) k w = k a w.
Proof. reflexivity. Qed.

Lemma calls_log (w : world) lvl message :
  calls (w ++ [Log lvl message])%list = calls w.
Proof.
  unfold calls. rewrite filter_app. simpl. now rewrite app_nil_r.
Qed.

Lemma calls_get (w : world) url headers timeout :
  calls (w ++ [Get url headers timeout])%list = S (calls w).
Proof.
  unfold calls. rewrite filter_app, length_app. simpl. lia.
Qed.

Lemma truthy_dict key entries v :
  lookup key entries = Some v -> truthy (JDict entries) = true.
Proof. destruct entries; [discriminate | reflexivity]. Qed.

Lemma format_alert_run feature props w :
  properties_of feature = Some props ->
  format_alert feature w
  = (Ok (alert_block props),
     (w ++ [Log DEBUG
              ("Formatting alert feature: " ++ py_str feature)%string])%list).
Proof.
  intros H. unfold properties_of in H.
  destruct feature as [| | | | |?|entries]; try discriminate.
  destruct (lookup "properties" entries) as [v|] eqn:L; try discriminate.
  destruct v as [| | | | |?|ps]; try discriminate.
  injection H as ->.
  unfold format_alert. rewrite bind_logging.
  unfold getitem. rewrite L.
  unfold get, alert_block, alert_lines, field_or, join.
  rewrite !bind_lift_ok. unfold ret. f_equal. f_equal.
  destruct (lookup "event" props), (lookup "areaDesc" props),
    (lookup "severity" props), (lookup "description" props),
    (lookup "instruction" props); simpl;
    repeat (rewrite append_assoc; simpl); reflexivity.
Qed.

Lemma mapM_format_alert features : forall propss w,
  map properties_of features = map Some propss ->
  exists w', mapM format_alert features w = (Ok (map alert_block propss), w').
Proof.
  induction features as [|feature rest IH]; intros [|props propss] w H;
    try discriminate.
  - eexists. reflexivity.
  - simpl in H. injection H as Hfeature Hrest.
    cbn [mapM map].
    rewrite (bind_run _ _ _ _ _ (format_alert_run _ _ w Hfeature)).
    match goal with
    | |- context [bind (mapM _ _) _ ?w1] =>
        destruct (IH propss w1 Hrest) as (w' & Hrun)
    end.
    rewrite (bind_run _ _ _ _ _ Hrun).
    eexists. reflexivity.
Qed.

Lemma format_period_run period p w :
  fields_of period = Some p ->
  format_period period w = (Ok (period_block p), w).
Proof.
  intros H. unfold fields_of in H.
  destruct period as [| | | | |?|entries]; try discriminate.
  unfold format_period, getitem.
  destruct (lookup "name" entries); try discriminate.
  destruct (lookup "temperature" entries); try discriminate.
  destruct (lookup "temperatureUnit" entries); try discriminate.
  destruct (lookup "windSpeed" entries); try discriminate.
  destruct (lookup "windDirection" entries); try discriminate.
  destruct (lookup "detailedForecast" entries); try discriminate.
  injection H as <-.
  rewrite !bind_lift_ok. unfold ret, period_block, period_lines, join.
  f_equal. f_equal. simpl.
  repeat (rewrite append_assoc; simpl). reflexivity.
Qed.

Lemma mapM_format_period periods : forall ps w,
  map fields_of periods = map Some ps ->
  mapM format_period periods w = (Ok (map period_block ps), w).
Proof.
  induction periods as [|period rest IH]; intros [|p ps] w H;
    try discriminate.
  - reflexivity.
  - simpl in H. injection H as Hperiod Hrest.
    cbn [mapM map].
    rewrite (bind_run _ _ _ _ _ (format_period_run _ _ w Hperiod)).
    rewrite (bind_run _ _ _ _ _ (IH ps w Hrest)).
    reflexivity.
Qed.

Lemma records_have_properties features :
  forallb (fun feature =>
             match properties_of feature with
             | Some _ => true
             | None => false
             end) features = true ->
  exists propss, map properties_of features = map Some propss.
Proof.
  induction features as [|feature rest IH]; simpl; intros H.
  - now exists [].
  - apply andb_prop in H. destruct H as [Hfeature Hrest].
    destruct (IH Hrest) as (propss & Hpropss).
    destruct (properties_of feature) as [props|]; [|discriminate].
    exists (props :: propss). simpl. now rewrite Hpropss.
Qed.

Lemma forecast_of_getitem points_data url :
  forecast_of points_data = Some url ->
  truthy points_data = true
  /\ exists properties,
       getitem points_data "properties" = Ok properties
       /\ getitem properties "forecast" = Ok url.
Proof.
  unfold forecast_of. intros H.
  destruct points_data as [| | | | |?|entries]; try discriminate.
  destruct (lookup "properties" entries) as [v|] eqn:L; try discriminate.
  destruct v as [| | | | |?|props]; try discriminate.
  split; [exact (truthy_dict _ _ _ L)|].
  exists (JDict props). unfold getitem. now rewrite L, H.
Qed.

Lemma periods_of_getitem forecast_data periods :
  periods_of forecast_data = Some periods ->
  truthy forecast_data = true
  /\ exists properties,
       getitem forecast_data "properties" = Ok properties
       /\ getitem properties "periods" = Ok (JList periods).
Proof.
  unfold periods_of. intros H.
  destruct forecast_data as [| | | | |?|entries]; try discriminate.
  destruct (lookup "properties" entries) as [v|] eqn:L; try discriminate.
  destruct v as [| | | | |?|props]; try discriminate.
  destruct (lookup "periods" props) as [v|] eqn:P; try discriminate.
  destruct v as [| | | | |items|?]; try discriminate.
  injection H as ->.
  split; [exact (truthy_dict _ _ _ L)|].
  exists (JDict props). unfold getitem. now rewrite L, P.
Qed.

Section Facts.

Variable upstream : nat -> json -> get_outcome.

(** One call of [make_nws_request]: it never raises, it returns what
    [fetched] says, and it calls [client.get] once. *)
Lemma make_nws_request_run url w :
  exists w',
    make_nws_request upstream url w
    = (Ok (fetched (upstream (calls w) url)), w')
    /\ filter is_get w'
       = (filter is_get w ++ [Get url request_headers 30])%list.
Proof.
  unfold make_nws_request, try_body, client_get, bind, logging, ret.
  rewrite calls_log.
  destruct (upstream (calls w) url) as [text | status_code status_error body];
    simpl.
  2: destruct (is_success status_code); [destruct body as [text | data]|];
    simpl.
  all: eexists; split; [reflexivity|].
  all: repeat rewrite filter_app; simpl; now rewrite ?app_nil_r.
Qed.

Lemma make_nws_request_calls url w :
  exists w',
    make_nws_request upstream url w
    = (Ok (fetched (upstream (calls w) url)), w')
    /\ calls w' = S (calls w).
Proof.
  destruct (make_nws_request_run url w) as (w' & Hrun & Hget).
  exists w'. split; [exact Hrun|].
  unfold calls. rewrite Hget, length_app. simpl. lia.
Qed.

(** The fetch of [get_alerts] is its first call of the outside. *)
Ltac fetch_alerts w1 :=
  unfold get_alerts; rewrite bind_logging; cbv zeta;
  match goal with
  | |- context [bind (make_nws_request _ ?u) ?k ?w0] =>
      let Hrun := fresh "Hrun" in
      destruct (make_nws_request_calls u w0) as (w1 & Hrun & _);
      rewrite (bind_run _ _ _ _ _ Hrun); clear Hrun;
      rewrite calls_log
  end.

Lemma get_alerts_falsy state w :
  truthy (fetched (upstream (calls w) (JStr (alerts_url state)))) = false ->
  fst (get_alerts upstream state w)
  = Ok "Unable to fetch alerts or no alerts found.".
Proof.
  intros H. fetch_alerts w1. unfold alerts_url in H. rewrite H. reflexivity.
Qed.

Lemma get_alerts_no_features state w entries :
  fetched (upstream (calls w) (JStr (alerts_url state))) = JDict entries ->
  lookup "features" entries = None ->
  fst (get_alerts upstream state w)
  = Ok "Unable to fetch alerts or no alerts found.".
Proof.
  intros H L. fetch_alerts w1. unfold alerts_url in H. rewrite H.
  destruct (truthy (JDict entries)); cbn [negb]; [|reflexivity].
  unfold contains. rewrite L. reflexivity.
Qed.

(** With a [features] field in the body, what follows the two guards of
    [get_alerts] depends on that field only. *)
Lemma get_alerts_features state w entries features :
  fetched (upstream (calls w) (JStr (alerts_url state))) = JDict entries ->
  lookup "features" entries = Some features ->
  exists w1,
    get_alerts upstream state w
    = (if negb (truthy features) then
         logging INFO "No active alerts for this state" ;;
         ret "No active alerts for this state."
       else
         items <- lift (iterate features) ;;
         alerts <- mapM format_alert items ;;
         ret (join separator alerts)) w1.
Proof.
  intros H L. fetch_alerts w1. unfold alerts_url in H. rewrite H.
  rewrite (truthy_dict _ _ _ L). cbn [negb].
  unfold contains, getitem. rewrite L.
  exists w1. cbv [bind lift ret]. cbn [negb].
  now destruct (truthy features).
Qed.

Lemma get_alerts_empty state w entries :
  fetched (upstream (calls w) (JStr (alerts_url state))) = JDict entries ->
  lookup "features" entries = Some (JList []) ->
  fst (get_alerts upstream state w) = Ok "No active alerts for this state.".
Proof.
  intros H L. now destruct (get_alerts_features _ _ _ _ H L) as (w1 & ->).
Qed.

Lemma get_alerts_list state w entries features propss :
  fetched (upstream (calls w) (JStr (alerts_url state))) = JDict entries ->
  lookup "features" entries = Some (JList features) ->
  features <> [] ->
  map properties_of features = map Some propss ->
  fst (get_alerts upstream state w)
  = Ok (join separator (map alert_block propss)).
Proof.
  intros H L Hne Hprops.
  destruct (get_alerts_features _ _ _ _ H L) as (w1 & ->).
  destruct features as [|feature rest]; [congruence|].
  cbn [truthy negb iterate]. rewrite bind_lift_ok.
  destruct (mapM_format_alert _ _ w1 Hprops) as (w2 & Hrun).
  now rewrite (bind_run _ _ _ _ _ Hrun).
Qed.

Ltac fetch_points w1 Hcalls :=
  unfold get_forecast; rewrite bind_logging; cbv zeta;
  match goal with
  | |- context [bind (make_nws_request _ ?u) ?k ?w0] =>
      let Hrun := fresh "Hrun" in
      destruct (make_nws_request_calls u w0) as (w1 & Hrun & Hcalls);
      rewrite (bind_run _ _ _ _ _ Hrun); clear Hrun;
      rewrite calls_log in *
  end.

Lemma get_forecast_falsy latitude longitude w :
  truthy (fetched (upstream (calls w) (JStr (points_url latitude longitude))))
  = false ->
  fst (get_forecast upstream latitude longitude w)
  = Ok "Unable to fetch forecast data for this location.".
Proof.
  intros H. fetch_points w1 Hcalls. unfold points_url in H. rewrite H.
  reflexivity.
Qed.

(** After a points answer that names a forecast URL, [get_forecast] makes
    its second call of the outside; what follows depends on the data this
    call fetches. *)
Lemma get_forecast_detailed latitude longitude w url :
  forecast_of
    (fetched (upstream (calls w) (JStr (points_url latitude longitude))))
  = Some url ->
  exists w2,
    get_forecast upstream latitude longitude w
    = (let forecast_data := fetched (upstream (S (calls w)) url) in
       if negb (truthy forecast_data) then
         logging WARNING "Failed to fetch detailed forecast" ;;
         ret "Unable to fetch detailed forecast."
       else
         properties <- lift (getitem forecast_data "properties") ;;
         periods <- lift (getitem properties "periods") ;;
         first_five <- lift (slice_to 5 periods) ;;
         items <- lift (iterate first_five) ;;
         forecasts <- mapM format_period items ;;
         ret (join separator forecasts)) w2.
Proof.
  intros H. apply forecast_of_getitem in H.
  destruct H as (T & properties & P & F).
  fetch_points w1 Hcalls. unfold points_url in T, P. rewrite T. cbn [negb].
  rewrite P, bind_lift_ok, F, bind_lift_ok.
  destruct (make_nws_request_calls url w1) as (w2 & Hrun & _).
  rewrite (bind_run _ _ _ _ _ Hrun). rewrite Hcalls.
  exists w2. reflexivity.
Qed.

Lemma get_forecast_periods latitude longitude w url periods ps :
  forecast_of
    (fetched (upstream (calls w) (JStr (points_url latitude longitude))))
  = Some url ->
  periods_of (fetched (upstream (S (calls w)) url)) = Some periods ->
  map fields_of (firstn 5 periods) = map Some ps ->
  fst (get_forecast upstream latitude longitude w)
  = Ok (join separator (map period_block ps)).
Proof.
  intros H P F.
  destruct (get_forecast_detailed _ _ _ _ H) as (w2 & ->). cbv zeta.
  apply periods_of_getitem in P. destruct P as (T & properties & P1 & P2).
  rewrite T. cbn [negb].
  rewrite P1, bind_lift_ok, P2, bind_lift_ok.
  cbn [slice_to]. rewrite bind_lift_ok. cbn [iterate]. rewrite bind_lift_ok.
  now rewrite (bind_run _ _ _ _ _ (mapM_format_period _ _ w2 F)).
Qed.

(** ** The fetch helper *)

(** C8: on an answer with a 2xx status and a body that decodes,
    [make_nws_request] returns the decoded body; when [client.get] raises
    (network error, timeout), when the status is not 2xx, and when the
    body does not decode, it returns [None]; it never raises, and in every
    case it calls [client.get] exactly once, with the URL, the two fixed
    headers and the 30 second timeout. *)
Theorem make_nws_request_contract url w :
  fst (make_nws_request upstream url w)
  = Ok (fetched (upstream (calls w) url))
  /\ (forall status_code status_error data,
      upstream (calls w) url = Replied status_code status_error (inr data) ->
      200 <= status_code <= 299 ->
      fst (make_nws_request upstream url w) = Ok data)
  /\ (forall text,
         upstream (calls w) url = GetRaised text ->
         fst (make_nws_request upstream url w) = Ok JNull)
  /\ (forall status_code status_error body,
         upstream (calls w) url = Replied status_code status_error body ->
         ~ 200 <= status_code <= 299 ->
         fst (make_nws_request upstream url w) = Ok JNull)
  /\ (forall status_code status_error text,
         upstream (calls w) url = Replied status_code status_error (inl text) ->
         fst (make_nws_request upstream url w) = Ok JNull)
  /\ (exists data, fst (make_nws_request upstream url w) = Ok data)
  /\ filter is_get (snd (make_nws_request upstream url w))
     = (filter is_get w
          ++ [Get url [("User-Agent", "weather-app/1.0");
                       ("Accept", "application/geo+json")] 30])%list.
Proof.
  destruct (make_nws_request_run url w) as (w' & Hrun & Hget).
  rewrite Hrun. cbn [fst snd].
  split; [reflexivity|]. repeat split.
  - intros status_code status_error data -> Hstatus. unfold fetched, is_success.
    replace (200 <=? status_code) with true by (symmetry; apply Z.leb_le; lia).
    replace (status_code <=? 299) with true by (symmetry; apply Z.leb_le; lia).
    reflexivity.
  - now intros text ->.
  - intros status_code status_error body -> Hstatus.
    unfold fetched, is_success.
    destruct (200 <=? status_code) eqn:Hlow;
      destruct (status_code <=? 299) eqn:Hhigh; try reflexivity.
    apply Z.leb_le in Hlow, Hhigh. lia.
  - intros status_code status_error text ->. unfold fetched.
    now destruct (is_success status_code).
  - eexists. reflexivity.
  - exact Hget.
Qed.

(** ** The alert formatter *)

(** C7, as the code has it: on a feature record whose [properties] is a
    record (an object, not null or another value),
    [format_alert] returns the block of five lines, between two newlines,
    that carry after their labels the text of [event], [areaDesc],
    [severity], [description] and [instruction], or, for a missing field,
    its placeholder. *)
Theorem format_alert_five_lines feature props w :
  properties_of feature = Some props ->
  fst (format_alert feature w)
  = Ok (nl ++ join nl
               [ "Event: " ++ field_or props "event" "Unknown";
                 "Area: " ++ field_or props "areaDesc" "Unknown";
                 "Severity: " ++ field_or props "severity" "Unknown";
                 "Description: "
                   ++ field_or props "description" "No description available";
                 "Instructions: "
                   ++ field_or props "instruction"
                        "No specific instructions provided" ]
           ++ nl)
  /\ (forall key placeholder v,
         lookup key props = Some v -> field_or props key placeholder = py_str v)
  /\ (forall key placeholder,
         lookup key props = None -> field_or props key placeholder = placeholder).
Proof.
  intros H. rewrite (format_alert_run _ _ w H).
  repeat split.
  - intros key placeholder v L. unfold field_or. now rewrite L.
  - intros key placeholder L. unfold field_or. now rewrite L.
Qed.

(** ** get_alerts *)

(** C3: [get_alerts] returns "Unable to fetch alerts or no alerts found."
    when the fetch is absent and when the fetched body has no [features]
    field; [get_forecast] returns "Unable to fetch forecast data for this
    location." when the points fetch is absent, and "Unable to fetch
    detailed forecast." when the forecast fetch that follows is absent. *)
Theorem fixed_failure_messages state latitude longitude w :
  (fetched (upstream (calls w) (JStr (alerts_url state))) = JNull ->
   fst (get_alerts upstream state w)
   = Ok "Unable to fetch alerts or no alerts found.")
  /\ (forall entries,
         fetched (upstream (calls w) (JStr (alerts_url state)))
         = JDict entries ->
         lookup "features" entries = None ->
         fst (get_alerts upstream state w)
         = Ok "Unable to fetch alerts or no alerts found.")
  /\ (fetched (upstream (calls w) (JStr (points_url latitude longitude)))
      = JNull ->
      fst (get_forecast upstream latitude longitude w)
      = Ok "Unable to fetch forecast data for this location.")
  /\ (forall url,
         forecast_of
           (fetched
              (upstream (calls w) (JStr (points_url latitude longitude))))
         = Some url ->
         fetched (upstream (S (calls w)) url) = JNull ->
         fst (get_forecast upstream latitude longitude w)
         = Ok "Unable to fetch detailed forecast.").
Proof.
  repeat split.
  - intros H. apply get_alerts_falsy. now rewrite H.
  - intros entries H L. now apply get_alerts_no_features with entries.
  - intros H. apply get_forecast_falsy. now rewrite H.
  - intros url H F.
    destruct (get_forecast_detailed _ _ _ _ H) as (w2 & ->).
    cbv zeta. now rewrite F.
Qed.

(** C4: when the fetched alerts body has a [features] field that is an
    empty list, [get_alerts] returns "No active alerts for this state." *)
Theorem get_alerts_empty_features state w entries :
  fetched (upstream (calls w) (JStr (alerts_url state))) = JDict entries ->
  lookup "features" entries = Some (JList []) ->
  fst (get_alerts upstream state w) = Ok "No active alerts for this state.".
Proof. apply get_alerts_empty. Qed.

(** C5, as the code has it: when the fetched alerts body has N >= 1
    features, each a record whose [properties] is a record (an object), [get_alerts] returns the N blocks of
    [format_alert], one per feature and in their order, joined by the
    separator line; each block has the text of every field that is
    present and the placeholder of every field that is missing. *)
Theorem get_alerts_joins_blocks state w entries features propss :
  fetched (upstream (calls w) (JStr (alerts_url state))) = JDict entries ->
  lookup "features" entries = Some (JList features) ->
  (1 <= List.length features)%nat ->
  map properties_of features = map Some propss ->
  fst (get_alerts upstream state w)
  = Ok (join (nl ++ "---" ++ nl) (map alert_block propss))
  /\ List.length (map alert_block propss) = List.length features
  /\ Forall2 (fun feature block =>
                fst (format_alert feature w) = Ok block)
       features (map alert_block propss).
Proof.
  intros H L Hlen Hprops. repeat split.
  - apply get_alerts_list with entries features; try assumption.
    intros ->. simpl in Hlen. lia.
  - rewrite length_map. rewrite <- (length_map Some), <- Hprops.
    now rewrite length_map.
  - clear H L Hlen. revert propss Hprops.
    induction features as [|feature rest IH]; intros [|props propss] Hprops;
      try discriminate; [constructor|].
    simpl in Hprops. injection Hprops as Hfeature Hrest.
    constructor; [|now apply IH].
    now rewrite (format_alert_run _ _ w Hfeature).
Qed.

(** ** get_forecast *)

(** C6, as the code has it: when the fetched forecast has M periods under
    [properties.periods], and the first five of them (all of them when
    M <= 5) are period records, [get_forecast] returns min(M,5) blocks
    joined by the separator line, one per period and in the order of the
    list; a block has the name, the temperature followed by its unit, the
    wind speed followed by the wind direction, and the detailed forecast. *)
Theorem get_forecast_first_five latitude longitude w url periods ps :
  forecast_of
    (fetched (upstream (calls w) (JStr (points_url latitude longitude))))
  = Some url ->
  periods_of (fetched (upstream (S (calls w)) url)) = Some periods ->
  map fields_of (firstn 5 periods) = map Some ps ->
  fst (get_forecast upstream latitude longitude w)
  = Ok (join (nl ++ "---" ++ nl) (map period_block ps))
  /\ List.length (map period_block ps) = Nat.min (List.length periods) 5
  /\ (forall p,
         period_block p
         = nl ++ join nl
                   [ py_str (name p) ++ ":";
                     "Temperature: " ++ py_str (temperature p) ++ "°"
                       ++ py_str (temperatureUnit p);
                     "Wind: " ++ py_str (windSpeed p) ++ " "
                       ++ py_str (windDirection p);
                     "Forecast: " ++ py_str (detailedForecast p) ]
              ++ nl).
Proof.
  intros H P F. repeat split.
  - now apply get_forecast_periods with url periods.
  - rewrite length_map. rewrite <- (length_map Some), <- F.
    rewrite length_map, length_firstn. lia.
Qed.

(** C10: when the points answer names a forecast URL and the fetched
    forecast has an empty list under [properties.periods], [get_forecast]
    returns the empty string. *)
Theorem get_forecast_no_periods latitude longitude w url :
  forecast_of
    (fetched (upstream (calls w) (JStr (points_url latitude longitude))))
  = Some url ->
  periods_of (fetched (upstream (S (calls w)) url)) = Some [] ->
  fst (get_forecast upstream latitude longitude w) = Ok "".
Proof.
  intros H P.
  now apply (get_forecast_periods _ _ _ _ _ [] H P).
Qed.

End Facts.

(** ** Two invocations *)

Section Determinism.

Variables up1 up2 : nat -> json -> get_outcome.

#[local] Abbreviation same := (same_result up1 up2).

Lemma same_ret {A} (a : A) : same (ret a) (ret a).
Proof. intros w1 w2 H. now split. Qed.

Lemma same_lift {A} (r : result A) : same (lift r) (lift r).
Proof. intros w1 w2 H. now split. Qed.

Lemma same_logging lvl message :
  same (logging lvl message) (logging lvl message).
Proof.
  intros w1 w2 H. split; [reflexivity|].
  cbn [logging snd]. now rewrite !calls_log.
Qed.

Lemma same_bind {A B} (m1 m2 : M A) (k1 k2 : A -> M B) :
  same m1 m2 -> (forall a, same (k1 a) (k2 a)) ->
  same (bind m1 k1) (bind m2 k2).
Proof.
  intros Hm Hk w1 w2 H. unfold bind.
  destruct (Hm w1 w2 H) as [Hres Hafter].
  destruct (m1 w1) as [r1 w1'], (m2 w2) as [r2 w2'].
  cbn [fst snd] in Hres, Hafter. subst r2.
  destruct r1 as [a|e]; [now apply Hk | now split].
Qed.

Lemma same_mapM {A B} (f1 f2 : A -> M B) (l : list A) :
  (forall a, same (f1 a) (f2 a)) -> same (mapM f1 l) (mapM f2 l).
Proof.
  intros Hf. induction l as [|a rest IH]; cbn [mapM].
  - apply same_ret.
  - apply same_bind; [apply Hf | intros b].
    apply same_bind; [apply IH | intros bs]. apply same_ret.
Qed.

Lemma same_client_get url headers timeout :
  same (client_get up1 url headers timeout)
       (client_get up2 url headers timeout).
Proof.
  intros w1 w2 H. cbn [client_get fst snd]. split.
  - f_equal. specialize (H 0%nat url). now rewrite !Nat.add_0_r in H.
  - rewrite !calls_get. intros k u.
    specialize (H (S k) u). now rewrite !Nat.add_succ_r in H.
Qed.

#[local] Hint Resolve same_ret same_lift same_logging same_client_get
  : same.
#[local] Hint Extern 2 (same_result _ _ (bind _ _) (bind _ _)) =>
  apply same_bind; [| intro] : same.
#[local] Hint Extern 2 (same_result _ _ (mapM _ _) (mapM _ _)) =>
  apply same_mapM; intro : same.
#[local] Hint Extern 3 (same_result _ _ (if ?b then _ else _) _) =>
  destruct b : same.
#[local] Hint Extern 3 (same_result _ _ (match ?x with _ => _ end) _) =>
  destruct x : same.

Lemma same_make_nws_request url :
  same (make_nws_request up1 url) (make_nws_request up2 url).
Proof. unfold make_nws_request, try_body. auto 12 with same. Qed.

Lemma same_format_alert feature :
  same (format_alert feature) (format_alert feature).
Proof. unfold format_alert. auto 12 with same. Qed.

Lemma same_format_period period :
  same (format_period period) (format_period period).
Proof. unfold format_period. auto 12 with same. Qed.

#[local] Hint Resolve same_make_nws_request same_format_alert
  same_format_period : same.

Lemma same_get_alerts state :
  same (get_alerts up1 state) (get_alerts up2 state).
Proof. unfold get_alerts. cbv zeta. auto 20 with same. Qed.

Lemma same_get_forecast latitude longitude :
  same (get_forecast up1 latitude longitude)
       (get_forecast up2 latitude longitude).
Proof. unfold get_forecast. cbv zeta. auto 20 with same. Qed.

(** C9: two invocations of [get_alerts] with the same state, or of
    [get_forecast] with the same coordinates, whose upstreams give the
    same answer at every call the invocations make, return the same
    string (or raise the same exception), whatever happened before
    either of them. *)
Theorem tools_deterministic w1 w2 :
  (forall k url, up1 (calls w1 + k)%nat url = up2 (calls w2 + k)%nat url) ->
  (forall state,
      fst (get_alerts up1 state w1) = fst (get_alerts up2 state w2))
  /\ (forall latitude longitude,
         fst (get_forecast up1 latitude longitude w1)
         = fst (get_forecast up2 latitude longitude w2)).
Proof.
  intros H. split.
  - intros state. now apply same_get_alerts.
  - intros latitude longitude. now apply same_get_forecast.
Qed.

End Determinism.

(** ** Answers that lack an expected key *)

(** C2: there are upstream answers, valid JSON all of them, on which the
    invocation raises instead of returning a text: an alert feature
    without [properties], a points answer without [properties] or without
    [forecast] under it, a forecast answer without [properties] or
    without [periods] under it. *)
Theorem missing_keys_fault state latitude longitude :
  fst (get_alerts (replies [alerts_missing_properties]) state [])
  = Raise (KeyError "properties")
  /\ fst (get_forecast (replies [points_missing_properties])
            latitude longitude [])
     = Raise (KeyError "properties")
  /\ fst (get_forecast (replies [points_missing_forecast])
            latitude longitude [])
     = Raise (KeyError "forecast")
  /\ fst (get_forecast (replies [points_body; forecast_missing_properties])
            latitude longitude [])
     = Raise (KeyError "properties")
  /\ fst (get_forecast (replies [points_body; forecast_missing_periods])
            latitude longitude [])
     = Raise (KeyError "periods").
Proof. repeat split. Qed.

(** A value of another shape where a record is expected faults as well:
    [properties] that is [null] has no [get], and a period that is not a
    record cannot be subscripted. *)
Lemma unexpected_shapes_fault state latitude longitude :
  fst (get_alerts
         (replies [JDict [("features",
                           JList [JDict [("properties", JNull)]])]])
         state [])
  = Raise AttributeError
  /\ fst (get_forecast
            (replies [points_body;
                      JDict [("properties",
                              JDict [("periods", JList [JInt 1])])]])
            latitude longitude [])
     = Raise TypeError.
Proof. split; reflexivity. Qed.

(** ** What the tools ask of the outside *)

Lemma quiet_ret {A} (a : A) : quiet (ret a).
Proof. intros w. reflexivity. Qed.

Lemma quiet_lift {A} (r : result A) : quiet (lift r).
Proof. intros w. reflexivity. Qed.

Lemma gets_log (w : world) lvl message :
  filter is_get (w ++ [Log lvl message])%list = filter is_get w.
Proof. rewrite filter_app. simpl. now rewrite app_nil_r. Qed.

Lemma quiet_logging lvl message : quiet (logging lvl message).
Proof. intros w. apply gets_log. Qed.

Lemma quiet_bind {A B} (m : M A) (k : A -> M B) :
  quiet m -> (forall a, quiet (k a)) -> quiet (bind m k).
Proof.
  intros Hm Hk w. unfold bind. specialize (Hm w).
  destruct (m w) as [[a|e] w1]; cbn [snd] in *.
  - now rewrite Hk.
  - exact Hm.
Qed.

Lemma quiet_mapM {A B} (f : A -> M B) (l : list A) :
  (forall a, quiet (f a)) -> quiet (mapM f l).
Proof.
  intros Hf. induction l as [|a rest IH]; cbn [mapM].
  - apply quiet_ret.
  - apply quiet_bind; [apply Hf | intros b].
    apply quiet_bind; [apply IH | intros bs]. apply quiet_ret.
Qed.

#[local] Hint Resolve quiet_ret quiet_lift quiet_logging : quiet.
#[local] Hint Extern 2 (quiet (bind _ _)) =>
  apply quiet_bind; [| intro] : quiet.
#[local] Hint Extern 2 (quiet (mapM _ _)) =>
  apply quiet_mapM; intro : quiet.
#[local] Hint Extern 3 (quiet (if ?b then _ else _)) => destruct b : quiet.

Lemma quiet_format_alert feature : quiet (format_alert feature).
Proof. unfold format_alert. auto 12 with quiet. Qed.

Lemma quiet_format_period period : quiet (format_period period).
Proof. unfold format_period. auto 12 with quiet. Qed.

#[local] Hint Resolve quiet_format_alert quiet_format_period : quiet.

Section Requests.

Variable upstream : nat -> json -> get_outcome.

(** [make_nws_request] leaves three events: the line that names the URL,
    the one call of [client.get], and a closing line, which is at ERROR
    level with the text of the exception on every failure and at DEBUG
    level with the decoded body on success. *)
Theorem make_nws_request_events url w :
  snd (make_nws_request upstream url w)
  = (w ++ [Log DEBUG ("Making NWS request to " ++ py_str url)%string;
           Get url request_headers 30;
           closing_line (upstream (calls w) url)])%list.
Proof.
  unfold make_nws_request, try_body, client_get, bind, logging, ret.
  rewrite calls_log.
  destruct (upstream (calls w) url) as [text | status_code status_error body];
    cbn [closing_line].
  2: destruct (is_success status_code); [destruct body as [text | data]|].
  all: cbn [snd]; now rewrite <- !app_assoc.
Qed.

(** Whatever the answer, and also when it raises, [get_alerts] calls
    [client.get] exactly once, for the alerts URL of the state, with the
    two fixed headers and the 30 second timeout. *)
Theorem get_alerts_one_request state w :
  filter is_get (snd (get_alerts upstream state w))
  = (filter is_get w ++ [Get (JStr (alerts_url state)) request_headers 30])%list.
Proof.
  unfold get_alerts. rewrite bind_logging. cbv zeta.
  match goal with
  | |- context [bind (make_nws_request _ ?u) ?k ?w0] =>
      destruct (make_nws_request_run upstream u w0) as (w1 & Hrun & Hget);
      rewrite (bind_run _ _ _ _ _ Hrun)
  end.
  rewrite gets_log in Hget. unfold alerts_url. rewrite <- Hget.
  match goal with
  | |- filter is_get (snd (?m w1)) = _ => refine ((_ : quiet m) w1)
  end.
  auto 20 with quiet.
Qed.


Lemma getitem_forecast_of points_data properties url :
  getitem points_data "properties" = Ok properties ->
  getitem properties "forecast" = Ok url ->
  forecast_of points_data = Some url.
Proof.
  unfold getitem, forecast_of. intros P F.
  destruct points_data as [| | | | |?|entries]; try discriminate.
  destruct (lookup "properties" entries) as [v|]; try discriminate.
  injection P as ->.
  destruct properties as [| | | | |?|props]; try discriminate.
  destruct (lookup "forecast" props); [now injection F as -> | discriminate].
Qed.

(** [get_forecast] calls [client.get] for the points URL of the
    coordinates first.  It makes a second call exactly when the points
    data has [properties.forecast], and hands [client.get] the value found
    there; nothing else is ever requested, also when the invocation
    raises. *)
Theorem get_forecast_requests latitude longitude w :
  (forecast_of
     (fetched (upstream (calls w) (JStr (points_url latitude longitude))))
   = None ->
   filter is_get (snd (get_forecast upstream latitude longitude w))
   = (filter is_get w
        ++ [Get (JStr (points_url latitude longitude)) request_headers 30])%list)
  /\ (forall url,
         forecast_of
           (fetched
              (upstream (calls w) (JStr (points_url latitude longitude))))
         = Some url ->
         filter is_get (snd (get_forecast upstream latitude longitude w))
         = (filter is_get w
              ++ [Get (JStr (points_url latitude longitude)) request_headers 30;
                  Get url request_headers 30])%list).
Proof.
  unfold get_forecast. rewrite bind_logging. cbv zeta.
  match goal with
  | |- context [bind (make_nws_request _ ?u) ?k ?w0] =>
      destruct (make_nws_request_calls upstream u w0) as (w1 & Hrun & Hcalls);
      destruct (make_nws_request_run upstream u w0) as (w1' & Hrun' & Hget);
      rewrite Hrun in Hrun'; injection Hrun' as <-;
      rewrite !(bind_run _ _ _ _ _ Hrun)
  end.
  rewrite calls_log in *. rewrite gets_log in Hget. unfold points_url.
  set (points_data :=
         fetched
           (upstream (calls w)
              (JStr (NWS_API_BASE ++ "/points/" ++ float_repr latitude ++ ","
                                  ++ float_repr longitude)))) in *.
  split.
  - intros Hnone. rewrite <- Hget.
    destruct (truthy points_data); cbn [negb];
      [| refine ((_ : quiet _) w1); auto with quiet].
    destruct (getitem points_data "properties") as [properties|e] eqn:P;
      [|reflexivity].
    rewrite bind_lift_ok.
    destruct (getitem properties "forecast") as [url|e] eqn:F; [|reflexivity].
    now rewrite (getitem_forecast_of _ _ _ P F) in Hnone.
  - intros url Hsome.
    destruct (forecast_of_getitem _ _ Hsome) as (T & properties & P & F).
    rewrite T. cbn [negb]. rewrite P, bind_lift_ok, F, bind_lift_ok.
    destruct (make_nws_request_run upstream url w1) as (w2 & Hrun2 & Hget2).
    rewrite (bind_run _ _ _ _ _ Hrun2).
    match goal with
    | |- _ = (_ ++ [?a; ?b])%list =>
        change [a; b] with ([a] ++ [b])%list
    end.
    rewrite app_assoc, <- Hget, <- Hget2.
    refine ((_ : quiet _) w2). auto 20 with quiet.
Qed.

(** A body that decodes to a falsy value (null, false, 0, 0.0, an empty
    string, list or object) is taken for a failed fetch, whatever the
    status: [get_alerts] and both stages of [get_forecast] answer with
    their "Unable to fetch" messages. *)
Theorem falsy_body_is_failure state latitude longitude w :
  (truthy (fetched (upstream (calls w) (JStr (alerts_url state)))) = false ->
   fst (get_alerts upstream state w)
   = Ok "Unable to fetch alerts or no alerts found.")
  /\ (truthy
        (fetched (upstream (calls w) (JStr (points_url latitude longitude))))
      = false ->
      fst (get_forecast upstream latitude longitude w)
      = Ok "Unable to fetch forecast data for this location.")
  /\ (forall url,
         forecast_of
           (fetched
              (upstream (calls w) (JStr (points_url latitude longitude))))
         = Some url ->
         truthy (fetched (upstream (S (calls w)) url)) = false ->
         fst (get_forecast upstream latitude longitude w)
         = Ok "Unable to fetch detailed forecast.").
Proof.
  split; [apply get_alerts_falsy|]. split; [apply get_forecast_falsy|].
  intros url H F.
  destruct (get_forecast_detailed upstream _ _ _ _ H) as (w2 & ->).
  cbv zeta. now rewrite F.
Qed.

(** A [features] field that is present but falsy (null, false, 0, an
    empty string or object, as well as an empty list) gives "No active
    alerts for this state." *)
Theorem get_alerts_falsy_features state w entries features :
  fetched (upstream (calls w) (JStr (alerts_url state))) = JDict entries ->
  lookup "features" entries = Some features ->
  truthy features = false ->
  fst (get_alerts upstream state w) = Ok "No active alerts for this state.".
Proof.
  intros H L T.
  destruct (get_alerts_features upstream _ _ _ _ H L) as (w1 & ->).
  now rewrite T.
Qed.

(** A truthy body that is not an object: a number or [true] makes the
    membership test of [get_alerts] raise TypeError; a list or a string
    that does not contain "features" is reported as unable to fetch, and
    one that does raises TypeError at the subscript. *)
Theorem get_alerts_body_not_object state w :
  let data := fetched (upstream (calls w) (JStr (alerts_url state))) in
  truthy data = true ->
  (forall entries, data <> JDict entries) ->
  fst (get_alerts upstream state w)
  = match contains "features" data with
    | Ok false => Ok "Unable to fetch alerts or no alerts found."
    | _ => Raise TypeError
    end.
Proof.
  cbv zeta. intros T Hshape.
  unfold get_alerts. rewrite bind_logging. cbv zeta.
  match goal with
  | |- context [bind (make_nws_request _ ?u) ?k ?w0] =>
      destruct (make_nws_request_calls upstream u w0) as (w1 & Hrun & _);
      rewrite (bind_run _ _ _ _ _ Hrun); clear Hrun; rewrite calls_log
  end.
  unfold alerts_url in *.
  destruct (fetched _) as [| b | n | f | s | items | entries];
    [ discriminate T | | | | | | now destruct (Hshape entries) ];
    rewrite T; cbn [negb contains]; cbv [bind lift ret]; cbn [negb].
  - reflexivity.
  - reflexivity.
  - reflexivity.
  - now destruct (substring_of "features" s).
  - now destruct (existsb (is_str "features") items).
Qed.

End Requests.

(** ** Faults and what decides the text *)

(** [format_alert] writes its one DEBUG line before it looks at the
    feature, so also when it raises.  It raises what the subscript
    [feature["properties"]] raises (TypeError on a feature that is not an
    object, KeyError on an object without the key), AttributeError when
    the value found is not an object, and only returns on a feature whose
    [properties] is an object. *)
Theorem format_alert_outcome feature w :
  snd (format_alert feature w)
  = (w ++ [Log DEBUG
             ("Formatting alert feature: " ++ py_str feature)%string])%list
  /\ (forall e,
         getitem feature "properties" = Raise e ->
         fst (format_alert feature w) = Raise e)
  /\ (forall properties,
         getitem feature "properties" = Ok properties ->
         (forall props, properties <> JDict props) ->
         fst (format_alert feature w) = Raise AttributeError)
  /\ (forall block,
         fst (format_alert feature w) = Ok block ->
         exists props,
           properties_of feature = Some props /\ block = alert_block props).
Proof.
  unfold format_alert. rewrite bind_logging.
  destruct (getitem feature "properties") as [properties|e] eqn:P.
  - rewrite bind_lift_ok.
    destruct properties as [| b | n | f | s | items | props].
    1-6: (split; [reflexivity|]; split; [discriminate|];
          split; [reflexivity | discriminate]).
    assert (Hprops : properties_of feature = Some props).
    { unfold getitem in P. unfold properties_of.
      destruct feature as [| | | | | |entries]; try discriminate.
      destruct (lookup "properties" entries); [|discriminate].
      now injection P as ->. }
    pose proof (format_alert_run feature props w Hprops) as Hrun.
    unfold format_alert in Hrun. rewrite bind_logging, P, bind_lift_ok in Hrun.
    rewrite Hrun. cbn [fst snd].
    split; [reflexivity|]. split; [discriminate|]. split.
    + intros properties Heq Hshape. injection Heq as <-.
      now destruct (Hshape props).
    + intros block Hblock. injection Hblock as <-. now exists props.
  - split; [reflexivity|]. split; [now intros e' [= ->]|].
    split; [discriminate | discriminate].
Qed.


Lemma format_alert_fst feature w w' :
  fst (format_alert feature w) = fst (format_alert feature w').
Proof.
  unfold format_alert. rewrite !bind_logging. cbv [bind lift ret].
  destruct (getitem feature "properties") as [properties|e]; [|reflexivity].
  now destruct properties.
Qed.

Lemma mapM_format_alert_fault good : forall propss bad rest e w,
  map properties_of good = map Some propss ->
  fst (format_alert bad []) = Raise e ->
  fst (mapM format_alert (good ++ bad :: rest) w) = Raise e.
Proof.
  induction good as [|feature good IH]; intros [|props propss] bad rest e w H F;
    try discriminate; cbn [app mapM].
  - unfold bind. rewrite (format_alert_fst bad [] w) in F.
    destruct (format_alert bad w) as [r w1]. cbn [fst] in F. now subst r.
  - simpl in H. injection H as Hfeature Hgood.
    rewrite (bind_run _ _ _ _ _ (format_alert_run _ _ w Hfeature)).
    unfold bind at 1.
    specialize (IH propss bad rest e
                  (w ++ [Log DEBUG
                           ("Formatting alert feature: "
                              ++ py_str feature)%string])%list Hgood F).
    destruct (mapM format_alert (good ++ bad :: rest) _) as [r w1].
    cbn [fst] in IH. now subst r.
Qed.

Section Faults.

Variable upstream : nat -> json -> get_outcome.

(** The first feature that [format_alert] cannot format decides the
    outcome of [get_alerts]: the invocation raises that feature's
    exception, and none of the alerts formatted before it is returned. *)
Theorem get_alerts_first_fault state w entries good propss bad rest e :
  fetched (upstream (calls w) (JStr (alerts_url state))) = JDict entries ->
  lookup "features" entries = Some (JList (good ++ bad :: rest)) ->
  map properties_of good = map Some propss ->
  fst (format_alert bad []) = Raise e ->
  fst (get_alerts upstream state w) = Raise e.
Proof.
  intros H L Hgood Hbad.
  destruct (get_alerts_features upstream _ _ _ _ H L) as (w1 & ->).
  assert (T : truthy (JList (good ++ bad :: rest)) = true)
    by now destruct good.
  rewrite T. cbn [negb iterate]. rewrite bind_lift_ok.
  pose proof (mapM_format_alert_fault good propss bad rest e w1 Hgood Hbad)
    as Hrun.
  unfold bind.
  destruct (mapM format_alert (good ++ bad :: rest) w1) as [r w2].
  cbn [fst] in Hrun. now subst r.
Qed.



Lemma join_starts_with_newline sep rest blocks :
  join sep ((nl ++ rest) :: blocks) <> "".
Proof. unfold join. cbn. now destruct blocks. Qed.



(** [format_period] touches nothing outside.  On an object it raises
    KeyError for the first key, in the order name, temperature,
    temperatureUnit, windSpeed, windDirection, detailedForecast, that the
    object lacks, and returns the block when none is lacking; on a period
    that is not an object it raises TypeError. *)
Theorem format_period_outcome period w :
  snd (format_period period w) = w
  /\ (forall entries key,
         period = JDict entries ->
         missing_key entries = Some key ->
         fst (format_period period w) = Raise (KeyError key))
  /\ (forall entries,
         period = JDict entries ->
         missing_key entries = None ->
         exists p,
           fields_of period = Some p
           /\ fst (format_period period w) = Ok (period_block p))
  /\ ((forall entries, period <> JDict entries) ->
      fst (format_period period w) = Raise TypeError).
Proof.
  destruct period as [| b | n | f | s | items | entries].
  1-6: (split; [reflexivity|]; split; [discriminate|];
        split; [discriminate | reflexivity]).
  split.
  { unfold format_period, getitem. cbv [bind lift ret].
    repeat match goal with
           | |- context [lookup ?k entries] => destruct (lookup k entries)
           end; reflexivity. }
  split; [|split].
  - intros entries' key [= <-]. unfold missing_key, period_keys, find.
    unfold format_period, getitem. cbv [bind lift ret].
    repeat match goal with
           | |- context [lookup ?k entries] => destruct (lookup k entries)
           end; cbn [fst]; intros [= <-]; reflexivity.
  - intros entries' [= <-]. unfold missing_key, period_keys, find.
    destruct (fields_of (JDict entries)) as [p|] eqn:Hp.
    + intros _. exists p. split; [reflexivity|].
      now rewrite (format_period_run _ _ w Hp).
    + unfold fields_of in Hp.
      repeat match type of Hp with
             | context [lookup ?k entries] => destruct (lookup k entries)
             end; discriminate.
  - intros Hshape. now destruct (Hshape entries).
Qed.

Lemma format_period_pure period w :
  format_period period w = (fst (format_period period []), w).
Proof.
  unfold format_period. cbv [bind lift ret].
  repeat match goal with
         | |- context [getitem period ?k] => destruct (getitem period k)
         end; reflexivity.
Qed.

Lemma mapM_format_period_pure periods : forall w,
  mapM format_period periods w = (fst (mapM format_period periods []), w).
Proof.
  induction periods as [|period rest IH]; intros w; cbn [mapM];
    [reflexivity|].
  unfold bind. rewrite (format_period_pure period w).
  rewrite (format_period_pure period []).
  destruct (fst (format_period period [])) as [block|e]; [|reflexivity].
  pose proof (IH w) as Hw. pose proof (IH []) as Hnil.
  destruct (mapM format_period rest []) as [r0 w0]. cbn [fst] in *.
  rewrite Hw. now destruct r0.
Qed.

(** With a list under [properties.periods], [get_forecast] is the loop
    over its first five entries followed by the join. *)
Lemma get_forecast_loop latitude longitude w url periods :
  forecast_of
    (fetched (upstream (calls w) (JStr (points_url latitude longitude))))
  = Some url ->
  periods_of (fetched (upstream (S (calls w)) url)) = Some periods ->
  fst (get_forecast upstream latitude longitude w)
  = match fst (mapM format_period (firstn 5 periods) []) with
    | Ok forecasts => Ok (join separator forecasts)
    | Raise e => Raise e
    end.
Proof.
  intros H P.
  destruct (get_forecast_detailed upstream _ _ _ _ H) as (w2 & ->). cbv zeta.
  apply periods_of_getitem in P. destruct P as (T & properties & P1 & P2).
  rewrite T. cbn [negb].
  rewrite P1, bind_lift_ok, P2, bind_lift_ok.
  cbn [slice_to]. rewrite bind_lift_ok. cbn [iterate]. rewrite bind_lift_ok.
  unfold bind. rewrite mapM_format_period_pure.
  now destruct (fst (mapM format_period (firstn 5 periods) [])).
Qed.

Lemma characters_cons c s :
  exists x more, characters (String c s) = String c x :: more.
Proof.
  cbn [characters].
  destruct (characters s) as [|following more]; [now exists "", []|].
  destruct (continues s); eexists; eexists; reflexivity.
Qed.

Lemma concat_cons c x l :
  exists y, String.concat "" (String c x :: l) = String c y.
Proof. destruct l; cbn; eexists; reflexivity. Qed.

Ltac fetch_first w1 Hcalls :=
  unfold get_forecast; rewrite bind_logging; cbv zeta;
  match goal with
  | |- context [bind (make_nws_request _ ?u) ?k ?w0] =>
      let Hrun := fresh "Hrun" in
      destruct (make_nws_request_calls upstream u w0) as (w1 & Hrun & Hcalls);
      rewrite (bind_run _ _ _ _ _ Hrun); clear Hrun;
      rewrite calls_log in *
  end.

(** Whatever key or shape is missing on the way to the periods,
    [get_forecast] raises the exception of the subscript that fails: at
    [points_data["properties"]], at [["forecast"]] under it, at
    [forecast_data["properties"]] and at [["periods"]] under it. *)
Theorem get_forecast_missing_key latitude longitude w :
  let points_data :=
    fetched (upstream (calls w) (JStr (points_url latitude longitude))) in
  (forall e,
      truthy points_data = true ->
      getitem points_data "properties" = Raise e ->
      fst (get_forecast upstream latitude longitude w) = Raise e)
  /\ (forall properties e,
         truthy points_data = true ->
         getitem points_data "properties" = Ok properties ->
         getitem properties "forecast" = Raise e ->
         fst (get_forecast upstream latitude longitude w) = Raise e)
  /\ (forall url e,
         forecast_of points_data = Some url ->
         truthy (fetched (upstream (S (calls w)) url)) = true ->
         getitem (fetched (upstream (S (calls w)) url)) "properties"
         = Raise e ->
         fst (get_forecast upstream latitude longitude w) = Raise e)
  /\ (forall url properties e,
         forecast_of points_data = Some url ->
         truthy (fetched (upstream (S (calls w)) url)) = true ->
         getitem (fetched (upstream (S (calls w)) url)) "properties"
         = Ok properties ->
         getitem properties "periods" = Raise e ->
         fst (get_forecast upstream latitude longitude w) = Raise e).
Proof.
  cbv zeta. split; [|split; [|split]].
  - intros e T P. fetch_first w1 Hcalls. unfold points_url in *.
    rewrite T. cbn [negb]. now rewrite P.
  - intros properties e T P F. fetch_first w1 Hcalls. unfold points_url in *.
    rewrite T. cbn [negb]. rewrite P, bind_lift_ok. now rewrite F.
  - intros url e H T P.
    destruct (get_forecast_detailed upstream _ _ _ _ H) as (w2 & ->).
    cbv zeta. rewrite T. cbn [negb]. now rewrite P.
  - intros url properties e H T P1 P2.
    destruct (get_forecast_detailed upstream _ _ _ _ H) as (w2 & ->).
    cbv zeta. rewrite T. cbn [negb]. rewrite P1, bind_lift_ok. now rewrite P2.
Qed.

(** A [periods] value that is neither a list nor an object: the empty
    string gives the empty text, since there is nothing to loop over;
    every other value raises TypeError, at the slice or at the first
    character of a string. *)
Theorem get_forecast_periods_not_list latitude longitude w url properties
    periods :
  forecast_of
    (fetched (upstream (calls w) (JStr (points_url latitude longitude))))
  = Some url ->
  truthy (fetched (upstream (S (calls w)) url)) = true ->
  getitem (fetched (upstream (S (calls w)) url)) "properties"
  = Ok properties ->
  getitem properties "periods" = Ok periods ->
  (forall items, periods <> JList items) ->
  (forall entries, periods <> JDict entries) ->
  fst (get_forecast upstream latitude longitude w)
  = match periods with
    | JStr EmptyString => Ok ""
    | _ => Raise TypeError
    end.
Proof.
  intros H T P1 P2 Hshape Hobject.
  destruct (get_forecast_detailed upstream _ _ _ _ H) as (w2 & ->).
  cbv zeta. rewrite T. cbn [negb]. rewrite P1, bind_lift_ok, P2, bind_lift_ok.
  destruct periods as [| b | n | f | s | items | entries];
    try reflexivity; try (now destruct (Hobject entries)).
  - destruct s as [|c s]; [reflexivity|].
    cbn [slice_to]. rewrite bind_lift_ok. cbn [iterate].
    rewrite bind_lift_ok.
    destruct (characters_cons c s) as (x & more & ->).
    change (firstn 5 (String c x :: more))
      with (String c x :: firstn 4 more).
    destruct (concat_cons c x (firstn 4 more)) as (y & ->).
    destruct (characters_cons c y) as (x' & more' & ->).
    reflexivity.
  - now destruct (Hshape items).
Qed.

Lemma mapM_format_period_fault good : forall ps bad rest e,
  map fields_of good = map Some ps ->
  fst (format_period bad []) = Raise e ->
  fst (mapM format_period (good ++ bad :: rest) []) = Raise e.
Proof.
  induction good as [|period good IH]; intros [|p ps] bad rest e H F;
    try discriminate; cbn [app mapM].
  - unfold bind. destruct (format_period bad []) as [r w1].
    cbn [fst] in F. now subst r.
  - simpl in H. injection H as Hperiod Hgood.
    rewrite (bind_run _ _ _ _ _ (format_period_run _ _ [] Hperiod)).
    unfold bind at 1. specialize (IH ps bad rest e Hgood F).
    destruct (mapM format_period (good ++ bad :: rest) []) as [r w1].
    cbn [fst] in IH. now subst r.
Qed.

(** The first of the first five periods that the loop cannot format
    decides the outcome of [get_forecast]: the invocation raises that
    period's exception and returns none of the blocks built before. *)
Theorem get_forecast_period_fault latitude longitude w url good ps bad rest
    e :
  forecast_of
    (fetched (upstream (calls w) (JStr (points_url latitude longitude))))
  = Some url ->
  periods_of (fetched (upstream (S (calls w)) url))
  = Some (good ++ bad :: rest)%list ->
  (List.length good < 5)%nat ->
  map fields_of good = map Some ps ->
  fst (format_period bad []) = Raise e ->
  fst (get_forecast upstream latitude longitude w) = Raise e.
Proof.
  intros H P Hlen Hgood Hbad.
  rewrite (get_forecast_loop _ _ _ _ _ H P).
  rewrite firstn_app, (firstn_all2 good) by lia.
  destruct (5 - List.length good)%nat as [|k] eqn:K; [lia|]. cbn [firstn].
  now rewrite (mapM_format_period_fault good ps bad (firstn k rest) e).
Qed.

Lemma format_alert_unformattable feature w :
  properties_of feature = None ->
  exists e, fst (format_alert feature w) = Raise e.
Proof.
  intros H. unfold format_alert. rewrite bind_logging.
  unfold properties_of in H. cbv [bind lift].
  destruct feature as [| b | n | f | s | items | entries];
    try (eexists; reflexivity).
  cbn [getitem].
  destruct (lookup "properties" entries) as [properties|];
    [| eexists; reflexivity].
  destruct properties; try discriminate H; eexists; reflexivity.
Qed.

Lemma mapM_unformattable items : forall w,
  forallb formattable items = false ->
  exists e, fst (mapM format_alert items w) = Raise e.
Proof.
  induction items as [|item rest IH]; intros w H; [discriminate|].
  cbn [forallb] in H. cbn [mapM]. unfold formattable at 1 in H.
  destruct (properties_of item) as [props|] eqn:P.
  - rewrite (bind_run _ _ _ _ _ (format_alert_run _ _ w P)).
    cbn [andb] in H. unfold bind at 1.
    match goal with
    | |- context [mapM format_alert rest ?w1] =>
        destruct (IH w1 H) as (e & He);
        destruct (mapM format_alert rest w1) as [r w2]
    end.
    cbn [fst] in He. subst r. now exists e.
  - destruct (format_alert_unformattable item w P) as (e & He).
    unfold bind. destruct (format_alert item w) as [r w1].
    cbn [fst] in He. subst r. now exists e.
Qed.

Lemma mapM_unformattable_str s items w :
  exists e, fst (mapM format_alert (JStr s :: items) w) = Raise e.
Proof. now apply mapM_unformattable. Qed.

(** What [get_alerts] does with a [features] value it found. *)
Lemma get_alerts_outcome_features features w1 :
  let rest :=
    (if negb (truthy features) then
       logging INFO "No active alerts for this state" ;;
       ret "No active alerts for this state."
     else
       items <- lift (iterate features) ;;
       alerts <- mapM format_alert items ;;
       ret (join separator alerts)) in
  if match features with
     | JList items => forallb formattable items
     | _ => negb (truthy features)
     end
  then exists text, fst (rest w1) = Ok text
  else exists e, fst (rest w1) = Raise e.
Proof.
  cbv zeta.
  destruct features as [| b | n | f | s | items | entries].
  - eexists. reflexivity.
  - destruct b; eexists; reflexivity.
  - cbn [truthy]. destruct (n =? 0); eexists; reflexivity.
  - destruct f; eexists; reflexivity.
  - destruct s as [|c s]; [eexists; reflexivity|].
    change (truthy (JStr (String c s))) with true. cbn [negb iterate].
    rewrite bind_lift_ok.
    destruct (characters_cons c s) as (x & more & ->). cbn [map].
    destruct (mapM_unformattable_str (String c x) (map JStr more) w1)
      as (e & He).
    unfold bind.
    destruct (mapM format_alert (JStr (String c x) :: map JStr more) w1)
      as [r w2].
    cbn [fst] in He. subst r. now exists e.
  - destruct items as [|item items]; [eexists; reflexivity|].
    change (truthy (JList (item :: items))) with true. cbn [negb iterate].
    rewrite bind_lift_ok.
    destruct (forallb formattable (item :: items)) eqn:Hall.
    + destruct (records_have_properties _ Hall) as (propss & Hpropss).
      destruct (mapM_format_alert _ _ w1 Hpropss) as (w2 & Hrun).
      rewrite (bind_run _ _ _ _ _ Hrun). eexists. reflexivity.
    + destruct (mapM_unformattable _ w1 Hall) as (e & He).
      unfold bind.
      destruct (mapM format_alert (item :: items) w1) as [r w2].
      cbn [fst] in He. subst r. now exists e.
  - destruct entries as [|[key v] entries]; [eexists; reflexivity|].
    change (truthy (JDict ((key, v) :: entries))) with true.
    cbn [negb iterate map fst]. rewrite bind_lift_ok.
    destruct (mapM_unformattable_str key
                (map (fun kv => JStr (fst kv)) entries) w1) as (e & He).
    unfold bind.
    destruct (mapM format_alert _ w1) as [r w2].
    cbn [fst] in He. subst r. now exists e.
Qed.

Lemma get_alerts_outcome state w :
  if returns_text (fetched (upstream (calls w) (JStr (alerts_url state))))
  then exists text, fst (get_alerts upstream state w) = Ok text
  else exists e, fst (get_alerts upstream state w) = Raise e.
Proof.
  destruct (fetched (upstream (calls w) (JStr (alerts_url state))))
    as [| b | n | f | s | items | entries] eqn:F.
  7: destruct (lookup "features" entries) as [features|] eqn:L.
  7: { destruct (get_alerts_features upstream _ _ _ _ F L) as (w1 & ->).
       cbn [returns_text]. rewrite L.
       apply (get_alerts_outcome_features features w1). }
  7: { cbn [returns_text]. rewrite L. eexists.
       now apply (get_alerts_no_features upstream state w entries). }
  all: unfold get_alerts; rewrite bind_logging; cbv zeta;
    match goal with
    | |- context [bind (make_nws_request _ ?u) ?k ?w0] =>
        destruct (make_nws_request_calls upstream u w0) as (w1 & Hrun & _);
        rewrite !(bind_run _ _ _ _ _ Hrun); clear Hrun; rewrite calls_log
    end;
    unfold alerts_url in F; rewrite F; cbn [returns_text].
  - eexists. reflexivity.
  - destruct b; eexists; reflexivity.
  - cbn [truthy]. destruct (n =? 0); eexists; reflexivity.
  - destruct f; eexists; reflexivity.
  - destruct s as [|c s]; [eexists; reflexivity|].
    change (truthy (JStr (String c s))) with true. cbn [negb contains].
    cbv [bind lift ret].
    destruct (substring_of "features" (String c s)); eexists; reflexivity.
  - destruct items as [|item items]; [eexists; reflexivity|].
    change (truthy (JList (item :: items))) with true. cbn [negb contains].
    cbv [bind lift ret].
    destruct (existsb (is_str "features") (item :: items));
      eexists; reflexivity.
Qed.

(** C1, as the code has it: [get_alerts] returns a string, and raises
    nothing, on every fetched body except the truthy ones on which one of
    its subscripts or its loop faults: a number or [true]; a list or a
    string that contains "features"; an object whose [features] is truthy
    and is not a list of objects that each carry a [properties] object.
    On these it raises, and on all others (an absent fetch among them) it
    returns a text. *)
Theorem get_alerts_returns_text state w :
  (exists text, fst (get_alerts upstream state w) = Ok text)
  <-> returns_text
        (fetched (upstream (calls w) (JStr (alerts_url state))))
      = true.
Proof.
  pose proof (get_alerts_outcome state w) as H.
  destruct (returns_text _).
  - split; [reflexivity | intros _; exact H].
  - destruct H as (e & He). split; [|discriminate].
    intros (text & Htext). rewrite He in Htext. discriminate.
Qed.

End Faults.

(** Only the first five periods decide what [get_forecast] returns: two
    invocations whose forecasts agree on them end alike (same text or same
    exception), whatever the coordinates, the rest of the two answers and
    the periods after the fifth, well formed or not. *)
Theorem get_forecast_first_five_decide up1 up2 latitude1 longitude1
    latitude2 longitude2 w1 w2 url1 url2 periods1 periods2 :
  forecast_of
    (fetched (up1 (calls w1) (JStr (points_url latitude1 longitude1))))
  = Some url1 ->
  periods_of (fetched (up1 (S (calls w1)) url1)) = Some periods1 ->
  forecast_of
    (fetched (up2 (calls w2) (JStr (points_url latitude2 longitude2))))
  = Some url2 ->
  periods_of (fetched (up2 (S (calls w2)) url2)) = Some periods2 ->
  firstn 5 periods1 = firstn 5 periods2 ->
  fst (get_forecast up1 latitude1 longitude1 w1)
  = fst (get_forecast up2 latitude2 longitude2 w2).
Proof.
  intros H1 P1 H2 P2 Hfive.
  rewrite (get_forecast_loop up1 _ _ _ _ _ H1 P1).
  rewrite (get_forecast_loop up2 _ _ _ _ _ H2 P2).
  now rewrite Hfive.
Qed.

End Rendering.

(** ** Worked examples *)

Example text_repr_quotes :
  text_repr "Travis, TX" = "'Travis, TX'"
  /\ text_repr "it's" = String "034" ("it's" ++ String "034" "")
  /\ text_repr ("a" ++ nl) = "'a\n'".
Proof. repeat split. Qed.

Example py_str_nested :
  py_str whole_repr text_repr
    (JDict [("a", JList [JInt 1; JStr "x"; JNull; JFloat lat_39; JBool false])])
  = "{'a': [1, 'x', None, 39.0, False]}"
  /\ py_str whole_repr text_repr (JStr "x") = "x".
Proof. split; reflexivity. Qed.

Example points_url_example :
  points_url whole_repr lat_39 lon_77
  = "https://api.weather.gov/points/39.0,-77.0".
Proof. reflexivity. Qed.

Example characters_example :
  iterate (JStr "5°F") = Ok [JStr "5"; JStr "°"; JStr "F"]
  /\ slice_to 5 (JStr "Tonight") = Ok (JStr "Tonig").
Proof. split; reflexivity. Qed.

Lemma get_alerts_raises_without_properties :
  fst (get_alerts whole_repr text_repr
         (replies [alerts_missing_properties]) "CA" [])
  = Raise (KeyError "properties")
  /\ ~ (exists text,
           fst (get_alerts whole_repr text_repr
                  (replies [alerts_missing_properties]) "CA" [])
           = Ok text).
Proof.
  split; [reflexivity|]. intros (text & H). discriminate H.
Qed.

Lemma get_alerts_returns_text_witness :
  (exists text,
      fst (get_alerts whole_repr text_repr (replies [alerts_body]) "TX" [])
      = Ok text)
  /\ (exists text,
         fst (get_alerts whole_repr text_repr
                (replies [JDict [("features", JNull)]]) "TX" [])
         = Ok text)
  /\ returns_text alerts_missing_properties = false.
Proof.
  split; [|split].
  - apply (proj2 (get_alerts_returns_text whole_repr text_repr
                    (replies [alerts_body]) "TX" [])).
    reflexivity.
  - apply (proj2 (get_alerts_returns_text whole_repr text_repr
                    (replies [JDict [("features", JNull)]]) "TX" [])).
    reflexivity.
  - reflexivity.
Defined.

Lemma format_alert_null_properties_raises :
  fst (format_alert whole_repr text_repr
         (JDict [("id", JStr "urn:oid:2.49.0.1.840.0.1");
                 ("properties", JNull)]) [])
  = Raise AttributeError.
Proof. reflexivity. Qed.

Lemma get_alerts_null_properties_raises :
  fst (get_alerts whole_repr text_repr
         (replies [JDict [("features",
                           JList [JDict [("properties", JNull)]])]])
         "TX" [])
  = Raise AttributeError
  /\ ~ (exists text,
           fst (get_alerts whole_repr text_repr
                  (replies [JDict [("features",
                                    JList [JDict [("properties", JNull)]])]])
                  "TX" [])
           = Ok text).
Proof.
  split; [reflexivity|]. intros (text & H). discriminate H.
Qed.

Lemma get_forecast_period_without_key_raises :
  fst (get_forecast whole_repr text_repr
         (replies [points_body;
                   JDict [("properties",
                           JDict [("periods",
                                   JList [JDict [("name", JStr "Today")]])])]])
         lat_39 lon_77 [])
  = Raise (KeyError "temperature")
  /\ ~ (exists text,
           fst (get_forecast whole_repr text_repr
                  (replies [points_body;
                            JDict [("properties",
                                    JDict [("periods",
                                            JList [JDict [("name",
                                                           JStr "Today")]])])]])
                  lat_39 lon_77 [])
           = Ok text).
Proof.
  split; [reflexivity|]. intros (text & H). discriminate H.
Qed.

Lemma make_nws_request_contract_witness :
  fst (make_nws_request whole_repr text_repr (replies [alerts_body])
         (JStr "https://api.weather.gov/alerts/active/area/TX") [])
  = Ok alerts_body
  /\ fst (make_nws_request whole_repr text_repr (replies [])
            (JStr "https://api.weather.gov/alerts/active/area/TX") [])
     = Ok JNull.
Proof.
  split.
  - apply (proj1 (proj2 (make_nws_request_contract whole_repr text_repr
                           (replies [alerts_body])
                           (JStr "https://api.weather.gov/alerts/active/area/TX")
                           [])) 200 "" alerts_body); [reflexivity | lia].
  - apply (proj1 (proj2 (proj2 (make_nws_request_contract whole_repr text_repr
                                  (replies [])
                                  (JStr "https://api.weather.gov/alerts/active/area/TX")
                                  []))) "All connection attempts failed").
    reflexivity.
Defined.

Lemma format_alert_five_lines_witness :
  fst (format_alert whole_repr text_repr flood_warning [])
  = Ok "
Event: Flood Warning
Area: Travis, TX
Severity: Unknown
Description: River rising.
Instructions: None
".
Proof.
  apply (proj1 (format_alert_five_lines whole_repr text_repr flood_warning
                  [("event", JStr "Flood Warning");
                   ("areaDesc", JStr "Travis, TX");
                   ("description", JStr "River rising.");
                   ("instruction", JNull)] [] eq_refl)).
Defined.

Lemma fixed_failure_messages_witness :
  fst (get_alerts whole_repr text_repr (replies []) "XX" [])
  = Ok "Unable to fetch alerts or no alerts found."
  /\ fst (get_alerts whole_repr text_repr
            (replies [points_missing_properties]) "XX" [])
     = Ok "Unable to fetch alerts or no alerts found."
  /\ fst (get_forecast whole_repr text_repr (replies []) lat_39 lon_77 [])
     = Ok "Unable to fetch forecast data for this location."
  /\ fst (get_forecast whole_repr text_repr (replies [points_body])
            lat_39 lon_77 [])
     = Ok "Unable to fetch detailed forecast.".
Proof.
  split; [|split; [|split]].
  - apply (proj1 (fixed_failure_messages whole_repr text_repr (replies [])
                    "XX" lat_39 lon_77 [])).
    reflexivity.
  - apply (proj1 (proj2 (fixed_failure_messages whole_repr text_repr
                           (replies [points_missing_properties])
                           "XX" lat_39 lon_77 []))
             [("type", JStr "Feature")]); reflexivity.
  - apply (proj1 (proj2 (proj2 (fixed_failure_messages whole_repr text_repr
                                  (replies []) "XX" lat_39 lon_77 [])))).
    reflexivity.
  - apply (proj2 (proj2 (proj2 (fixed_failure_messages whole_repr text_repr
                                  (replies [points_body])
                                  "XX" lat_39 lon_77 [])))
             (JStr "https://api.weather.gov/gridpoints/LWX/96,70/forecast"));
      reflexivity.
Defined.

Lemma get_alerts_empty_features_witness :
  fst (get_alerts whole_repr text_repr
         (replies [JDict [("features", JList [])]]) "XX" [])
  = Ok "No active alerts for this state.".
Proof.
  apply (get_alerts_empty_features whole_repr text_repr
           (replies [JDict [("features", JList [])]]) "XX" []
           [("features", JList [])]); reflexivity.
Defined.

Lemma get_alerts_joins_blocks_witness :
  fst (get_alerts whole_repr text_repr (replies [alerts_body]) "TX" [])
  = Ok "
Event: Flood Warning
Area: Travis, TX
Severity: Unknown
Description: River rising.
Instructions: None

---

Event: Heat Advisory
Area: Unknown
Severity: Moderate
Description: No description available
Instructions: No specific instructions provided
".
Proof.
  apply (proj1 (get_alerts_joins_blocks whole_repr text_repr
                  (replies [alerts_body]) "TX" []
                  [("features", JList [flood_warning; heat_advisory])]
                  [flood_warning; heat_advisory]
                  [[("event", JStr "Flood Warning");
                    ("areaDesc", JStr "Travis, TX");
                    ("description", JStr "River rising.");
                    ("instruction", JNull)];
                   [("event", JStr "Heat Advisory");
                    ("severity", JStr "Moderate")]]
                  eq_refl eq_refl (le_S _ _ (le_n _)) eq_refl)).
Defined.

Lemma get_forecast_first_five_witness :
  fst (get_forecast whole_repr text_repr
         (replies [points_body; forecast_body]) lat_39 lon_77 [])
  = Ok "
Today:
Temperature: 72°F
Wind: 5 mph NW
Forecast: Clear.

---

Tonight:
Temperature: 55°F
Wind: 5 mph NW
Forecast: Clear.

---

Monday:
Temperature: 75°F
Wind: 5 mph NW
Forecast: Clear.

---

Monday Night:
Temperature: 58°F
Wind: 5 mph NW
Forecast: Clear.

---

Tuesday:
Temperature: 70°F
Wind: 5 mph NW
Forecast: Clear.
".
Proof.
  apply (proj1 (get_forecast_first_five whole_repr text_repr
                  (replies [points_body; forecast_body]) lat_39 lon_77 []
                  (JStr "https://api.weather.gov/gridpoints/LWX/96,70/forecast")
                  [period_body "Today" 72; period_body "Tonight" 55;
                   period_body "Monday" 75; period_body "Monday Night" 58;
                   period_body "Tuesday" 70; period_body "Tuesday Night" (-3)]
                  [ {| name := JStr "Today"; temperature := JInt 72;
                       temperatureUnit := JStr "F"; windSpeed := JStr "5 mph";
                       windDirection := JStr "NW";
                       detailedForecast := JStr "Clear." |};
                    {| name := JStr "Tonight"; temperature := JInt 55;
                       temperatureUnit := JStr "F"; windSpeed := JStr "5 mph";
                       windDirection := JStr "NW";
                       detailedForecast := JStr "Clear." |};
                    {| name := JStr "Monday"; temperature := JInt 75;
                       temperatureUnit := JStr "F"; windSpeed := JStr "5 mph";
                       windDirection := JStr "NW";
                       detailedForecast := JStr "Clear." |};
                    {| name := JStr "Monday Night"; temperature := JInt 58;
                       temperatureUnit := JStr "F"; windSpeed := JStr "5 mph";
                       windDirection := JStr "NW";
                       detailedForecast := JStr "Clear." |};
                    {| name := JStr "Tuesday"; temperature := JInt 70;
                       temperatureUnit := JStr "F"; windSpeed := JStr "5 mph";
                       windDirection := JStr "NW";
                       detailedForecast := JStr "Clear." |} ]
                  eq_refl eq_refl eq_refl)).
Defined.

Lemma get_forecast_no_periods_witness :
  fst (get_forecast whole_repr text_repr
         (replies [points_body; forecast_without_periods]) lat_39 lon_77 [])
  = Ok "".
Proof.
  apply (get_forecast_no_periods whole_repr text_repr
           (replies [points_body; forecast_without_periods]) lat_39 lon_77 []
           (JStr "https://api.weather.gov/gridpoints/LWX/96,70/forecast"));
    reflexivity.
Defined.

Lemma tools_deterministic_witness :
  fst (get_forecast whole_repr text_repr
         (replies [points_body; forecast_body]) lat_39 lon_77 [])
  = fst (get_forecast whole_repr text_repr
           (fun n _ => replies [points_body; forecast_body] n JNull)
           lat_39 lon_77 [Log INFO "Shutdown complete"]).
Proof.
  apply (proj2 (tools_deterministic whole_repr text_repr
                  (replies [points_body; forecast_body])
                  (fun n _ => replies [points_body; forecast_body] n JNull)
                  [] [Log INFO "Shutdown complete"]
                  (fun k url => eq_refl))).
Defined.

Lemma get_forecast_requests_witness :
  filter is_get
    (snd (get_forecast whole_repr text_repr (replies [points_missing_forecast])
            lat_39 lon_77 []))
  = [Get (JStr "https://api.weather.gov/points/39.0,-77.0")
       request_headers 30]
  /\ filter is_get
       (snd (get_forecast whole_repr text_repr
               (replies [points_body; forecast_body]) lat_39 lon_77 []))
     = [Get (JStr "https://api.weather.gov/points/39.0,-77.0")
          request_headers 30;
        Get (JStr "https://api.weather.gov/gridpoints/LWX/96,70/forecast")
          request_headers 30].
Proof.
  split.
  - apply (proj1 (get_forecast_requests whole_repr text_repr
                    (replies [points_missing_forecast]) lat_39 lon_77 [])).
    reflexivity.
  - apply (proj2 (get_forecast_requests whole_repr text_repr
                    (replies [points_body; forecast_body]) lat_39 lon_77 [])
             (JStr "https://api.weather.gov/gridpoints/LWX/96,70/forecast")).
    reflexivity.
Defined.

Lemma falsy_body_is_failure_witness :
  fst (get_alerts whole_repr text_repr (replies [JDict []]) "XX" [])
  = Ok "Unable to fetch alerts or no alerts found."
  /\ fst (get_forecast whole_repr text_repr (replies [JList []])
            lat_39 lon_77 [])
     = Ok "Unable to fetch forecast data for this location."
  /\ fst (get_forecast whole_repr text_repr (replies [points_body; JInt 0])
            lat_39 lon_77 [])
     = Ok "Unable to fetch detailed forecast.".
Proof.
  split; [|split].
  - apply (proj1 (falsy_body_is_failure whole_repr text_repr
                    (replies [JDict []]) "XX" lat_39 lon_77 [])).
    reflexivity.
  - apply (proj1 (proj2 (falsy_body_is_failure whole_repr text_repr
                           (replies [JList []]) "XX" lat_39 lon_77 []))).
    reflexivity.
  - apply (proj2 (proj2 (falsy_body_is_failure whole_repr text_repr
                           (replies [points_body; JInt 0])
                           "XX" lat_39 lon_77 []))
             (JStr "https://api.weather.gov/gridpoints/LWX/96,70/forecast"));
      reflexivity.
Defined.

Lemma get_alerts_falsy_features_witness :
  fst (get_alerts whole_repr text_repr
         (replies [JDict [("features", JNull)]]) "XX" [])
  = Ok "No active alerts for this state.".
Proof.
  apply (get_alerts_falsy_features whole_repr text_repr
           (replies [JDict [("features", JNull)]]) "XX" []
           [("features", JNull)] JNull); reflexivity.
Defined.

Lemma get_alerts_body_not_object_witness :
  fst (get_alerts whole_repr text_repr (replies [JInt 7]) "XX" [])
  = Raise TypeError
  /\ fst (get_alerts whole_repr text_repr
            (replies [JList [JStr "error"]]) "XX" [])
     = Ok "Unable to fetch alerts or no alerts found.".
Proof.
  split.
  - apply (get_alerts_body_not_object whole_repr text_repr
             (replies [JInt 7]) "XX" []);
      [reflexivity | intros entries; discriminate].
  - apply (get_alerts_body_not_object whole_repr text_repr
             (replies [JList [JStr "error"]]) "XX" []);
      [reflexivity | intros entries; discriminate].
Defined.

Lemma format_alert_outcome_witness :
  fst (format_alert whole_repr text_repr (JStr "Feature") [])
  = Raise TypeError
  /\ fst (format_alert whole_repr text_repr
            (JDict [("properties", JNull)]) [])
     = Raise AttributeError.
Proof.
  split.
  - apply (proj1 (proj2 (format_alert_outcome whole_repr text_repr
                           (JStr "Feature") []))).
    reflexivity.
  - apply (proj1 (proj2 (proj2 (format_alert_outcome whole_repr text_repr
                                  (JDict [("properties", JNull)]) [])))
             JNull); [reflexivity | intros props; discriminate].
Defined.

Lemma get_alerts_first_fault_witness :
  fst (get_alerts whole_repr text_repr
         (replies [JDict [("features",
                           JList [flood_warning;
                                  JDict [("type", JStr "Feature")];
                                  heat_advisory])]])
         "TX" [])
  = Raise (KeyError "properties").
Proof.
  apply (get_alerts_first_fault whole_repr text_repr
           (replies [JDict [("features",
                             JList [flood_warning;
                                    JDict [("type", JStr "Feature")];
                                    heat_advisory])]])
           "TX" []
           [("features",
             JList [flood_warning; JDict [("type", JStr "Feature")];
                    heat_advisory])]
           [flood_warning]
           [[("event", JStr "Flood Warning");
             ("areaDesc", JStr "Travis, TX");
             ("description", JStr "River rising.");
             ("instruction", JNull)]]
           (JDict [("type", JStr "Feature")]) [heat_advisory]);
    reflexivity.
Defined.


Lemma format_period_outcome_witness :
  fst (format_period whole_repr text_repr
         (JDict [("name", JStr "Today"); ("temperature", JInt 72);
                 ("temperatureUnit", JStr "F");
                 ("detailedForecast", JStr "Clear.")]) [])
  = Raise (KeyError "windSpeed").
Proof.
  apply (proj1 (proj2 (format_period_outcome whole_repr text_repr
                         (JDict [("name", JStr "Today");
                                 ("temperature", JInt 72);
                                 ("temperatureUnit", JStr "F");
                                 ("detailedForecast", JStr "Clear.")]) []))
           [("name", JStr "Today"); ("temperature", JInt 72);
            ("temperatureUnit", JStr "F");
            ("detailedForecast", JStr "Clear.")]);
    reflexivity.
Defined.

Lemma get_forecast_missing_key_witness :
  fst (get_forecast whole_repr text_repr (replies [points_missing_forecast])
         lat_39 lon_77 [])
  = Raise (KeyError "forecast")
  /\ fst (get_forecast whole_repr text_repr
            (replies [points_body; JList [JInt 1]]) lat_39 lon_77 [])
     = Raise TypeError.
Proof.
  split.
  - apply (proj1 (proj2 (get_forecast_missing_key whole_repr text_repr
                           (replies [points_missing_forecast])
                           lat_39 lon_77 []))
             (JDict [("gridId", JStr "LWX")])); reflexivity.
  - apply (proj1 (proj2 (proj2 (get_forecast_missing_key whole_repr text_repr
                                  (replies [points_body; JList [JInt 1]])
                                  lat_39 lon_77 [])))
             (JStr "https://api.weather.gov/gridpoints/LWX/96,70/forecast"));
      reflexivity.
Defined.

Lemma get_forecast_periods_not_list_witness :
  fst (get_forecast whole_repr text_repr
         (replies [points_body;
                   JDict [("properties", JDict [("periods", JNull)])]])
         lat_39 lon_77 [])
  = Raise TypeError
  /\ fst (get_forecast whole_repr text_repr
            (replies [points_body;
                      JDict [("properties", JDict [("periods", JStr "")])]])
            lat_39 lon_77 [])
     = Ok "".
Proof.
  split.
  - apply (get_forecast_periods_not_list whole_repr text_repr
             (replies [points_body;
                       JDict [("properties", JDict [("periods", JNull)])]])
             lat_39 lon_77 []
             (JStr "https://api.weather.gov/gridpoints/LWX/96,70/forecast")
             (JDict [("periods", JNull)]) JNull);
      try reflexivity; intros ?; discriminate.
  - apply (get_forecast_periods_not_list whole_repr text_repr
             (replies [points_body;
                       JDict [("properties", JDict [("periods", JStr "")])]])
             lat_39 lon_77 []
             (JStr "https://api.weather.gov/gridpoints/LWX/96,70/forecast")
             (JDict [("periods", JStr "")]) (JStr ""));
      try reflexivity; intros ?; discriminate.
Defined.

Lemma get_forecast_period_fault_witness :
  fst (get_forecast whole_repr text_repr
         (replies [points_body;
                   JDict [("properties",
                           JDict [("periods",
                                   JList [period_body "Today" 72;
                                          JDict [("name", JStr "Tonight")];
                                          period_body "Monday" 75])])]])
         lat_39 lon_77 [])
  = Raise (KeyError "temperature").
Proof.
  apply (get_forecast_period_fault whole_repr text_repr
           (replies [points_body;
                     JDict [("properties",
                             JDict [("periods",
                                     JList [period_body "Today" 72;
                                            JDict [("name", JStr "Tonight")];
                                            period_body "Monday" 75])])]])
           lat_39 lon_77 []
           (JStr "https://api.weather.gov/gridpoints/LWX/96,70/forecast")
           [period_body "Today" 72]
           [ {| name := JStr "Today"; temperature := JInt 72;
                temperatureUnit := JStr "F"; windSpeed := JStr "5 mph";
                windDirection := JStr "NW";
                detailedForecast := JStr "Clear." |} ]
           (JDict [("name", JStr "Tonight")])
           [period_body "Monday" 75]);
    try reflexivity. simpl. lia.
Defined.

Lemma get_forecast_first_five_decide_witness :
  fst (get_forecast whole_repr text_repr
         (replies [points_body; forecast_body]) lat_39 lon_77 [])
  = fst (get_forecast whole_repr text_repr
           (replies [points_body;
                     JDict [("properties",
                             JDict [("periods",
                                     JList [period_body "Today" 72;
                                            period_body "Tonight" 55;
                                            period_body "Monday" 75;
                                            period_body "Monday Night" 58;
                                            period_body "Tuesday" 70;
                                            JNull; JStr "later"])])]])
           (S754_zero false) (S754_zero false) [Log INFO "Shutdown complete"]).
Proof.
  apply (get_forecast_first_five_decide whole_repr text_repr
           (replies [points_body; forecast_body])
           (replies [points_body;
                     JDict [("properties",
                             JDict [("periods",
                                     JList [period_body "Today" 72;
                                            period_body "Tonight" 55;
                                            period_body "Monday" 75;
                                            period_body "Monday Night" 58;
                                            period_body "Tuesday" 70;
                                            JNull; JStr "later"])])]])
           lat_39 lon_77 (S754_zero false) (S754_zero false)
           [] [Log INFO "Shutdown complete"]
           (JStr "https://api.weather.gov/gridpoints/LWX/96,70/forecast")
           (JStr "https://api.weather.gov/gridpoints/LWX/96,70/forecast")
           [period_body "Today" 72; period_body "Tonight" 55;
            period_body "Monday" 75; period_body "Monday Night" 58;
            period_body "Tuesday" 70; period_body "Tuesday Night" (-3)]
           [period_body "Today" 72; period_body "Tonight" 55;
            period_body "Monday" 75; period_body "Monday Night" 58;
            period_body "Tuesday" 70; JNull; JStr "later"]);
    reflexivity.
Defined.
